(** * LedgerAI: the reconciliation matcher

    A shallow embedding of [reconcile_invoice_with_ai]
    (src/agents/reconciliation_agents.py) and the properties of the
    matcher that the specification states about it.

    Python floats are IEEE 754 binary64 numbers; they are modelled by
    Rocq's primitive floats, which are the same format with the same
    rounding.  The two external collaborators, the text scorer
    ([fuzz.partial_ratio]) and the judgment service
    ([model.generate_content]), are calls a program makes to its
    environment: the matcher is a tree of such calls, and an interpreter
    answers them and records them in a log. *)

From Stdlib Require Import ZArith List Bool Ascii String Floats Lia.
Import ListNotations.

Local Open Scope string_scope.
Local Open Scope list_scope.
Local Open Scope Z_scope.

(* The literal 0.05 denotes the nearest binary64 number, in Rocq as in
   Python. *)
Set Warnings "-inexact-float".

(** ** Python strings (ASCII text) *)

Module PyStr.

(** [str.lower] on one character: "A".."Z" are moved to "a".."z". *)
Definition lower_ascii (c : ascii) : ascii :=
  let n := N_of_ascii c in
  if ((65 <=? n) && (n <=? 90))%N then ascii_of_N (n + 32) else c.

(** [str.upper] on one character. *)
Definition upper_ascii (c : ascii) : ascii :=
  let n := N_of_ascii c in
  if ((97 <=? n) && (n <=? 122))%N then ascii_of_N (n - 32) else c.

Fixpoint map (f : ascii -> ascii) (s : string) : string :=
  match s with
  | EmptyString => EmptyString
  | String c s' => String (f c) (map f s')
  end.

Definition lower : string -> string := map lower_ascii.
Definition upper : string -> string := map upper_ascii.

(** The ASCII characters [str.strip] removes: tab, line feed, vertical
    tab, form feed, carriage return, the four separators 28..31 and the
    space. *)
Definition is_space (c : ascii) : bool :=
  let n := N_of_ascii c in
  (((9 <=? n) && (n <=? 13)) || ((28 <=? n) && (n <=? 32)))%N.

Fixpoint lstrip (s : string) : string :=
  match s with
  | EmptyString => EmptyString
  | String c s' => if is_space c then lstrip s' else s
  end.

(** Trailing white space is dropped from the right: a character is kept
    when it is no space or when something is kept after it. *)
Fixpoint rstrip (s : string) : string :=
  match s with
  | EmptyString => EmptyString
  | String c s' =>
      match rstrip s' with
      | EmptyString => if is_space c then EmptyString else String c EmptyString
      | r => String c r
      end
  end.

Definition strip (s : string) : string := rstrip (lstrip s).

Definition startswith (s pre : string) : bool := String.prefix pre s.

End PyStr.

(** ** Exceptions and results *)

Inductive exn : Type :=
| ValueError (arg : string)    (* float() on a str that is no float literal *)
| TypeError                    (* float() on None *)
| ScorerError (msg : string)   (* raised by the text scorer *)
| ServiceError (msg : string). (* an Exception raised by the judgment service *)

(** [str(e)], as the handler prints it. *)
Definition exn_str (e : exn) : string :=
  match e with
  | ValueError arg =>
      ("could not convert string to float: '" ++ arg ++ "'")%string
  | TypeError => "float() argument must be a string or a real number, not 'NoneType'"
  | ScorerError msg => msg
  | ServiceError msg => msg
  end.

Inductive result (A : Type) : Type :=
| Ok (a : A)
| Raised (e : exn).
Arguments Ok {A} a.
Arguments Raised {A} e.

(** ** Data model *)

(** A value in a numeric position (an invoice's [total_amount], a row's
    [amount]), classified by what [float()] does with it. *)
Inductive cell : Type :=
| Num (f : float)      (* what float() converts (a float, an int, a str with a
                          float literal), given by the float it converts to *)
| NotNum (s : string)  (* a str that is no float literal, such as "N/A" *)
| Null.                (* None *)

Definition py_float (c : cell) : result float :=
  match c with
  | Num f => Ok f
  | NotNum s => Raised (ValueError s)
  | Null => Raised TypeError
  end.

(** The invoice dict: each key may be absent ([dict.get] then gives the
    default). *)
Record invoice : Type := {
  vendor_name : option string;
  invoice_number : option string;
  total_amount : option cell;
  due_date : option string
}.

(** One row of the transactions DataFrame (the columns of table
    [transactions] in src/core/db.py). *)
Record txn : Type := {
  t_id : Z;
  t_company_id : Z;
  t_date : string;
  t_description : string;
  t_amount : cell;
  t_type : string;
  t_status : string
}.

(** The dict [reconcile_invoice_with_ai] returns; a key that the dict
    does not have is [None]. *)
Record decision : Type := {
  status : string;
  transaction_id : option Z;
  confidence : option string;
  reason : string;
  matched_data : option txn
}.

(** The values interpolated into the judgment request.  The wording of
    the f-string is the same in every call, so a request is given by the
    six values it is built from. *)
Record prompt : Type := {
  p_vendor : string;
  p_number : string;
  p_amount : float;
  p_desc : string;
  p_txn_amount : float;
  p_diff : float
}.

(** What the [try] block sees of one judgment call. *)
Inductive gen_reply : Type :=
| Response (text : string)  (* a response object with a [text] *)
| NoText                    (* a falsy response, or one without [text] *)
| GenError (e : exn).       (* the call, or reading [text], raised *)

(** ** Programs over the two collaborators *)

Inductive prog (A : Type) : Type :=
| Ret (a : A)
| Throw (e : exn)
| Score (a b : string) (k : Z -> prog A)
| Generate (p : prompt) (k : gen_reply -> prog A)
| Print (msg : string) (k : prog A).
Arguments Ret {A} a.
Arguments Throw {A} e.
Arguments Score {A} a b k.
Arguments Generate {A} p k.
Arguments Print {A} msg k.

Inductive event : Type :=
| Scored (a b : string)
| Generated (p : prompt)
| Printed (msg : string).

Definition logged {A} (e : event) (r : list event * result A)
  : list event * result A :=
  (e :: fst r, snd r).

(** Running a program against a scorer and a judgment service that answer
    as functions of their arguments.  An exception of the scorer is not
    caught by the program and ends the run. *)
Fixpoint run {A} (scorer : string -> string -> result Z)
    (service : prompt -> gen_reply) (p : prog A) : list event * result A :=
  match p with
  | Ret a => ([], Ok a)
  | Throw e => ([], Raised e)
  | Score a b k =>
      match scorer a b with
      | Ok n => logged (Scored a b) (run scorer service (k n))
      | Raised e => ([Scored a b], Raised e)
      end
  | Generate p k => logged (Generated p) (run scorer service (k (service p)))
  | Print msg k => logged (Printed msg) (run scorer service k)
  end.

(** The same runs as a relation, for a judgment service that may answer
    one request in several ways. *)
Inductive runs {A} (scorer : string -> string -> result Z)
    (service : prompt -> gen_reply -> Prop)
  : prog A -> list event -> result A -> Prop :=
| runs_Ret a : runs scorer service (Ret a) [] (Ok a)
| runs_Throw e : runs scorer service (Throw e) [] (Raised e)
| runs_Score a b k n l r :
    scorer a b = Ok n ->
    runs scorer service (k n) l r ->
    runs scorer service (Score a b k) (Scored a b :: l) r
| runs_Score_raised a b k e :
    scorer a b = Raised e ->
    runs scorer service (Score a b k) [Scored a b] (Raised e)
| runs_Generate p k reply l r :
    service p reply ->
    runs scorer service (k reply) l r ->
    runs scorer service (Generate p k) (Generated p :: l) r
| runs_Print msg k l r :
    runs scorer service k l r ->
    runs scorer service (Print msg k) (Printed msg :: l) r.

(** ** The matcher *)

Definition ExactMatch : string := "Exact Match".
Definition AIReconciled : string := "AI Reconciled (With Fees)".
Definition Pending : string := "Pending".

Definition pending (why : string) : decision :=
  {| status := Pending; transaction_id := None; confidence := None;
     reason := why; matched_data := None |}.

Definition no_transactions : decision :=
  pending "No bank transactions available to match.".

Definition no_match : decision :=
  pending "No matching payment found in bank transactions.".

Definition exact_match (t : txn) : decision :=
  {| status := ExactMatch;
     transaction_id := Some (t_id t);
     confidence := Some "100%";
     reason := "Exact amount and strong text match found.";
     matched_data := Some t |}.

Definition ai_reconciled (t : txn) (text : string) : decision :=
  {| status := AIReconciled;
     transaction_id := Some (t_id t);
     confidence := Some "90%";
     reason := PyStr.strip text;
     matched_data := Some t |}.

Definition get {A} (field : option A) (default : A) : A :=
  match field with
  | Some v => v
  | None => default
  end.

(** [amount_diff > 0 and amount_diff <= (inv_amount * 0.05)] *)
Definition is_within_fee_range (inv_amount amount_diff : float) : bool :=
  (0 <? amount_diff)%float && (amount_diff <=? inv_amount * 0.05)%float.

Definition is_debit (t : txn) : bool :=
  String.eqb (PyStr.lower (t_type t)) "debit".

Section Loop.

Variables (inv_vendor inv_num : string) (inv_amount : float).

(** What the [try] block does with the service's answer; [next] is the
    rest of the loop. *)
Definition on_reply (t : txn) (next : prog decision) (reply : gen_reply)
  : prog decision :=
  match reply with
  | Response text =>
      let ai_decision := PyStr.upper (PyStr.strip text) in
      if PyStr.startswith ai_decision "YES"
      then Ret (ai_reconciled t text)
      else next
  | NoText => next
  | GenError e =>
      Print ("Gemini API Error during reconciliation: " ++ exn_str e)%string
            next
  end.

(** [inv_amount == txn_amount and text_score > 50] *)
Definition exact_rule (txn_amount : float) (text_score : Z) : bool :=
  (inv_amount =? txn_amount)%float && (50 <? text_score).

(** [text_score > 60 and is_within_fee_range] *)
Definition fee_rule (txn_amount : float) (text_score : Z) : bool :=
  (60 <? text_score)
  && is_within_fee_range inv_amount (abs (inv_amount - txn_amount)).

(** The request sent for a row with description [txn_desc] and amount
    [txn_amount]. *)
Definition request (txn_desc : string) (txn_amount : float) : prompt :=
  {| p_vendor := inv_vendor; p_number := inv_num; p_amount := inv_amount;
     p_desc := txn_desc; p_txn_amount := txn_amount;
     p_diff := abs (inv_amount - txn_amount) |}.

(** The body of the [for] loop on one debit row whose amount converted
    to [txn_amount], after the two scores are known. *)
Definition layers (t : txn) (txn_desc : string) (txn_amount : float)
    (vendor_match num_match : Z) (next : prog decision) : prog decision :=
  let text_score := Z.max vendor_match num_match in
  if exact_rule txn_amount text_score then Ret (exact_match t)
  else if fee_rule txn_amount text_score then
    Generate (request txn_desc txn_amount) (on_reply t next)
  else next.

(** One pass through the body of the [for] loop on row [t]; [next] is
    what [continue], or reaching the end of the body, goes on with. *)
Definition body (t : txn) (next : prog decision) : prog decision :=
  if negb (is_debit t) then next
  else
    let txn_desc := PyStr.lower (t_description t) in
    match py_float (t_amount t) with
    | Raised e => Throw e
    | Ok txn_amount =>
        Score inv_vendor txn_desc (fun vendor_match =>
        Score inv_num txn_desc (fun num_match =>
        layers t txn_desc txn_amount vendor_match num_match next))
    end.

(** [for index, txn in transactions_df.iterrows(): ...], followed by the
    final [return]. *)
Fixpoint scan (rows : list txn) : prog decision :=
  match rows with
  | [] => Ret no_match
  | t :: rest => body t (scan rest)
  end.

End Loop.

(** [inv_vendor], [inv_num] and [inv_amount] as the function computes
    them from the invoice. *)
Definition invoice_vendor (invoice_data : invoice) : string :=
  PyStr.lower (get (vendor_name invoice_data) "").

Definition invoice_num (invoice_data : invoice) : string :=
  PyStr.lower (get (invoice_number invoice_data) "").

Definition invoice_amount (invoice_data : invoice) : result float :=
  py_float (get (total_amount invoice_data) (Num 0.0%float)).

Definition reconcile_invoice_with_ai (invoice_data : invoice)
    (transactions_df : list txn) : prog decision :=
  match transactions_df with
  | [] => Ret no_transactions
  | _ :: _ =>
      let inv_vendor := invoice_vendor invoice_data in
      let inv_num := invoice_num invoice_data in
      match invoice_amount invoice_data with
      | Raised e => Throw e
      | Ok inv_amount => scan inv_vendor inv_num inv_amount transactions_df
      end
  end.

(** ** Reading the log *)

(** The requests sent to the judgment service, in order. *)
Fixpoint service_calls (l : list event) : list prompt :=
  match l with
  | [] => []
  | Generated p :: l' => p :: service_calls l'
  | _ :: l' => service_calls l'
  end.

(** Whether the [try] block accepts an answer: a response whose text,
    trimmed and uppercased, starts with YES. *)
Definition accepted (reply : gen_reply) : bool :=
  match reply with
  | Response text => PyStr.startswith (PyStr.upper (PyStr.strip text)) "YES"
  | NoText => false
  | GenError _ => false
  end.

(** What a refused answer leaves in the log: the handler's message when
    the call raised, nothing otherwise. *)
Definition refusal_log (reply : gen_reply) : list event :=
  match reply with
  | GenError e =>
      [Printed ("Gemini API Error during reconciliation: " ++ exn_str e)%string]
  | _ => []
  end.

(** A row on which the loop reaches the judgment call with request [p]:
    a debit row whose amount converts, whose two scores are returned,
    on which the exact rule does not fire, whose text score is above 60
    and whose gap is above 0 and at most [inv_amount * 0.05]. *)
Definition fee_candidate (scorer : string -> string -> result Z)
    (inv_vendor inv_num : string) (inv_amount : float) (t : txn)
    (p : prompt) : Prop :=
  is_debit t = true /\
  exists txn_amount vendor_match num_match,
    let txn_desc := PyStr.lower (t_description t) in
    let text_score := Z.max vendor_match num_match in
    py_float (t_amount t) = Ok txn_amount /\
    scorer inv_vendor txn_desc = Ok vendor_match /\
    scorer inv_num txn_desc = Ok num_match /\
    exact_rule inv_amount txn_amount text_score = false /\
    60 < text_score /\
    (0 <? abs (inv_amount - txn_amount))%float = true /\
    (abs (inv_amount - txn_amount) <=? inv_amount * 0.05)%float = true /\
    p = request inv_vendor inv_num inv_amount txn_desc txn_amount.

(** A row with another [status] value. *)
Definition with_status (s : string) (t : txn) : txn :=
  {| t_id := t_id t; t_company_id := t_company_id t; t_date := t_date t;
     t_description := t_description t; t_amount := t_amount t;
     t_type := t_type t; t_status := s |}.

(** Two rows that differ at most in their [status]. *)
Definition same_but_status (t1 t2 : txn) : Prop :=
  with_status "" t1 = with_status "" t2.

(** Two decisions that differ at most in the [status] of the matched row. *)
Definition same_decision_but_status (d1 d2 : decision) : Prop :=
  status d1 = status d2 /\
  transaction_id d1 = transaction_id d2 /\
  confidence d1 = confidence d2 /\
  reason d1 = reason d2 /\
  match matched_data d1, matched_data d2 with
  | Some t1, Some t2 => same_but_status t1 t2
  | None, None => True
  | _, _ => False
  end.

Definition same_result_but_status (r1 r2 : result decision) : Prop :=
  match r1, r2 with
  | Ok d1, Ok d2 => same_decision_but_status d1 d2
  | Raised e1, Raised e2 => e1 = e2
  | _, _ => False
  end.

(** ** One row against a scorer and a service that answer as functions *)

Section Row.

Variable scorer : string -> string -> result Z.
Variable service : prompt -> gen_reply.
Variables (inv_vendor inv_num : string) (inv_amount : float).

(** The two scores of a row, taken in the order of the calls; the
    exception of the first call that raises. *)
Definition text_score (t : txn) : result Z :=
  let txn_desc := PyStr.lower (t_description t) in
  match scorer inv_vendor txn_desc with
  | Raised e => Raised e
  | Ok vendor_match =>
      match scorer inv_num txn_desc with
      | Raised e => Raised e
      | Ok num_match => Ok (Z.max vendor_match num_match)
      end
  end.

(** What one pass through the loop body does on row [t]: the calls it
    logs, and how it ends, [Some] result when the function returns or
    an exception leaves it, [None] when the loop goes on with the next
    row. *)
Definition row_run (t : txn) : list event * option (result decision) :=
  if negb (is_debit t) then ([], None)
  else
    let txn_desc := PyStr.lower (t_description t) in
    let s1 := Scored inv_vendor txn_desc in
    let s2 := Scored inv_num txn_desc in
    match py_float (t_amount t) with
    | Raised e => ([], Some (Raised e))
    | Ok txn_amount =>
        match scorer inv_vendor txn_desc with
        | Raised e => ([s1], Some (Raised e))
        | Ok vendor_match =>
            match scorer inv_num txn_desc with
            | Raised e => ([s1; s2], Some (Raised e))
            | Ok num_match =>
                let text_score := Z.max vendor_match num_match in
                if exact_rule inv_amount txn_amount text_score then
                  ([s1; s2], Some (Ok (exact_match t)))
                else if fee_rule inv_amount txn_amount text_score then
                  let q := request inv_vendor inv_num inv_amount
                                   txn_desc txn_amount in
                  match service q with
                  | Response text =>
                      if accepted (Response text)
                      then ([s1; s2; Generated q],
                            Some (Ok (ai_reconciled t text)))
                      else ([s1; s2; Generated q], None)
                  | reply => (s1 :: s2 :: Generated q :: refusal_log reply, None)
                  end
                else ([s1; s2], None)
            end
        end
    end.

(** A row run followed by the run of the rest of the loop. *)
Definition then_run (row : list event * option (result decision))
    (rest : list event * result decision) : list event * result decision :=
  match snd row with
  | Some r => (fst row, r)
  | None => (fst row ++ fst rest, snd rest)
  end.

End Row.

(** A row that the loop passes without an exception of its own and
    without an exact match: when it is a debit, its amount converts, both
    scores are returned and the exact-match rule does not fire. *)
Definition inexact_row (scorer : string -> string -> result Z)
    (inv_vendor inv_num : string) (inv_amount : float) (t : txn) : Prop :=
  is_debit t = true ->
  exists txn_amount score,
    py_float (t_amount t) = Ok txn_amount /\
    text_score scorer inv_vendor inv_num t = Ok score /\
    exact_rule inv_amount txn_amount score = false.

(** A row none of whose requests the service accepts: whenever the row
    is a fee candidate, the answer to its request is a refusal. *)
Definition refused_row (scorer : string -> string -> result Z)
    (service : prompt -> gen_reply)
    (inv_vendor inv_num : string) (inv_amount : float) (t : txn) : Prop :=
  forall p, fee_candidate scorer inv_vendor inv_num inv_amount t p ->
            accepted (service p) = false.

(** ** Stubs and sample data *)

(** A scorer stub: 100 when [a] occurs in [b], 0 otherwise. *)
Definition occurs_scorer (a b : string) : result Z :=
  match String.index 0 a b with
  | Some _ => Ok 100
  | None => Ok 0
  end.

Definition raising_scorer (a b : string) : result Z :=
  Raised (ScorerError "scorer failed").

Definition says_yes (q : prompt) : gen_reply :=
  Response "YES, likely a processing fee.".

Definition says_no (q : prompt) : gen_reply :=
  Response "NO, the amounts are unrelated.".

Definition outage (q : prompt) : gen_reply :=
  GenError (ServiceError "503 service unavailable").

(** A service that answers NO to a request about a transaction of the
    given amount, and in any way to every other request. *)
Definition answers_only_about (amount : float) (q : prompt)
    (reply : gen_reply) : Prop :=
  (p_txn_amount q =? amount)%float = true ->
  reply = Response "NO, the amounts are unrelated.".

Definition acme_invoice (amount : option cell) : invoice :=
  {| vendor_name := Some "Acme Corp";
     invoice_number := Some "INV-1042";
     total_amount := amount;
     due_date := Some "2026-04-01" |}.

Definition acme_row (id : Z) (amount : cell) (type status : string) : txn :=
  {| t_id := id; t_company_id := 1; t_date := "2026-03-10";
     t_description := "ACME CORP PAYMENT"; t_amount := amount;
     t_type := type; t_status := status |}.

(** ** One row against a service that may answer in several ways *)

(** The pairs of strings given to the scorer, in order. *)
Fixpoint scorer_calls (l : list event) : list (string * string) :=
  match l with
  | [] => []
  | Scored a b :: l' => (a, b) :: scorer_calls l'
  | _ :: l' => scorer_calls l'
  end.

Section RowEnd.

Variable scorer : string -> string -> result Z.
Variable service : prompt -> gen_reply -> Prop.
Variables (inv_vendor inv_num : string) (inv_amount : float).

(** The ways one pass through the loop body on row [t] can go: the calls
    it logs and how it ends ([None]: the loop goes on with the next row).
    The relational counterpart of [row_run]. *)
Inductive row_end (t : txn)
  : list event -> option (result decision) -> Prop :=
| end_not_debit :
    is_debit t = false ->
    row_end t [] None
| end_bad_amount e :
    is_debit t = true ->
    py_float (t_amount t) = Raised e ->
    row_end t [] (Some (Raised e))
| end_first_score_raised txn_amount e :
    is_debit t = true ->
    py_float (t_amount t) = Ok txn_amount ->
    scorer inv_vendor (PyStr.lower (t_description t)) = Raised e ->
    row_end t [Scored inv_vendor (PyStr.lower (t_description t))]
            (Some (Raised e))
| end_second_score_raised txn_amount vendor_match e :
    is_debit t = true ->
    py_float (t_amount t) = Ok txn_amount ->
    scorer inv_vendor (PyStr.lower (t_description t)) = Ok vendor_match ->
    scorer inv_num (PyStr.lower (t_description t)) = Raised e ->
    row_end t [Scored inv_vendor (PyStr.lower (t_description t));
               Scored inv_num (PyStr.lower (t_description t))]
            (Some (Raised e))
| end_exact txn_amount score :
    is_debit t = true ->
    py_float (t_amount t) = Ok txn_amount ->
    text_score scorer inv_vendor inv_num t = Ok score ->
    exact_rule inv_amount txn_amount score = true ->
    row_end t [Scored inv_vendor (PyStr.lower (t_description t));
               Scored inv_num (PyStr.lower (t_description t))]
            (Some (Ok (exact_match t)))
| end_no_rule txn_amount score :
    is_debit t = true ->
    py_float (t_amount t) = Ok txn_amount ->
    text_score scorer inv_vendor inv_num t = Ok score ->
    exact_rule inv_amount txn_amount score = false ->
    fee_rule inv_amount txn_amount score = false ->
    row_end t [Scored inv_vendor (PyStr.lower (t_description t));
               Scored inv_num (PyStr.lower (t_description t))]
            None
| end_accepted txn_amount score text :
    is_debit t = true ->
    py_float (t_amount t) = Ok txn_amount ->
    text_score scorer inv_vendor inv_num t = Ok score ->
    exact_rule inv_amount txn_amount score = false ->
    fee_rule inv_amount txn_amount score = true ->
    service (request inv_vendor inv_num inv_amount
               (PyStr.lower (t_description t)) txn_amount) (Response text) ->
    accepted (Response text) = true ->
    row_end t [Scored inv_vendor (PyStr.lower (t_description t));
               Scored inv_num (PyStr.lower (t_description t));
               Generated (request inv_vendor inv_num inv_amount
                            (PyStr.lower (t_description t)) txn_amount)]
            (Some (Ok (ai_reconciled t text)))
| end_refused txn_amount score reply :
    is_debit t = true ->
    py_float (t_amount t) = Ok txn_amount ->
    text_score scorer inv_vendor inv_num t = Ok score ->
    exact_rule inv_amount txn_amount score = false ->
    fee_rule inv_amount txn_amount score = true ->
    service (request inv_vendor inv_num inv_amount
               (PyStr.lower (t_description t)) txn_amount) reply ->
    accepted reply = false ->
    row_end t (Scored inv_vendor (PyStr.lower (t_description t))
               :: Scored inv_num (PyStr.lower (t_description t))
               :: Generated (request inv_vendor inv_num inv_amount
                               (PyStr.lower (t_description t)) txn_amount)
               :: refusal_log reply)
            None.

(** The ways the loop over [rows] can go, row by row. *)
Inductive scan_end : list txn -> list event -> result decision -> Prop :=
| scan_end_nil : scan_end [] [] (Ok no_match)
| scan_end_stop t rest l r :
    row_end t l (Some r) ->
    scan_end (t :: rest) l r
| scan_end_next t rest l0 l r :
    row_end t l0 None ->
    scan_end rest l r ->
    scan_end (t :: rest) (l0 ++ l) r.

End RowEnd.

(** ** The store and the reconciliation step of the caller
    (src/core/db.py, src/app.py) *)

(** One row of table [invoices]. *)
Record invoice_row : Type := {
  i_id : Z;
  i_company_id : Z;
  i_vendor_name : string;
  i_invoice_number : string;
  i_total_amount : float;
  i_due_date : string;
  i_reconciliation_status : string
}.

(** The two tables the caller reads and writes. *)
Record store : Type := {
  transactions : list txn;
  invoices : list invoice_row
}.

(** [UPDATE invoices SET reconciliation_status = 'Reconciled' WHERE id = ?]
    on one row. *)
Definition update_invoice (invoice_id : Z) (i : invoice_row) : invoice_row :=
  if i_id i =? invoice_id then
    {| i_id := i_id i; i_company_id := i_company_id i;
       i_vendor_name := i_vendor_name i;
       i_invoice_number := i_invoice_number i;
       i_total_amount := i_total_amount i; i_due_date := i_due_date i;
       i_reconciliation_status := "Reconciled" |}
  else i.

(** [UPDATE transactions SET status = 'Reconciled' WHERE id = ?] on one
    row. *)
Definition update_transaction (transaction_id : Z) (t : txn) : txn :=
  if t_id t =? transaction_id then with_status "Reconciled" t else t.

(** What [mark_as_reconciled] prints. *)
Inductive db_note : Type :=
| Linked (invoice_id transaction_id : Z)
| UpdateError (msg : string).

(** [mark_as_reconciled]: both updates and the commit, or, when sqlite
    raises inside the [try] block ([fault]), the handler's message and
    nothing committed. *)
Definition mark_as_reconciled (fault : option string)
    (invoice_id transaction_id : Z) (s : store) : store * db_note :=
  match fault with
  | Some msg => (s, UpdateError msg)
  | None =>
      ({| transactions := map (update_transaction transaction_id)
                              (transactions s);
          invoices := map (update_invoice invoice_id) (invoices s) |},
       Linked invoice_id transaction_id)
  end.

(** [SELECT * FROM transactions WHERE company_id = 1] *)
Definition company_1 (rows : list txn) : list txn :=
  filter (fun t => t_company_id t =? 1) rows.

(** What the page shows in the reconciliation step. *)
Inductive shown : Type :=
| Success (status : string)
| Reasoning (reason : string)
| Matched (row : option txn)
| Warning (status : string)
| Text (reason : string)
| Error (msg : string).

(** [recon_result.get("status") in ["Exact Match", "AI Reconciled (With
    Fees)"]] *)
Definition is_match (d : decision) : bool :=
  String.eqb (status d) ExactMatch || String.eqb (status d) AIReconciled.

(** The reconciliation step of [render_invoice_processor] (after the
    invoice was saved under [invoice_id], -1 when saving failed): read
    the transactions of company 1, run the matcher, show the verdict
    and, for a match, mark invoice and transaction as reconciled.  An
    exception of the read ([read_fault]) or of the matcher is caught by
    the enclosing handler and shown. *)
Definition reconcile_step (scorer : string -> string -> result Z)
    (service : prompt -> gen_reply) (read_fault mark_fault : option string)
    (invoice_id : Z) (extracted_data : invoice) (s : store)
  : store * list shown :=
  match read_fault with
  | Some msg => (s, [Error msg])
  | None =>
      let transactions_df := company_1 (transactions s) in
      match snd (run scorer service
                   (reconcile_invoice_with_ai extracted_data transactions_df))
      with
      | Raised e => (s, [Error (exn_str e)])
      | Ok recon_result =>
          if is_match recon_result then
            let ui :=
              Success (status recon_result)
              :: (if String.eqb (status recon_result) AIReconciled
                  then [Reasoning (reason recon_result)] else [])
              ++ [Text "**Matched Bank Transaction:**";
                  Matched (matched_data recon_result)] in
            match transaction_id recon_result with
            | Some tid =>
                if negb (invoice_id =? -1)
                then (fst (mark_as_reconciled mark_fault invoice_id tid s), ui)
                else (s, ui)
            | None => (s, ui)
            end
          else (s, [Warning (status recon_result);
                    Text (reason recon_result)])
      end
  end.

(** ** Extraction fallback (src/agents/invoice_agents.py) *)

(** The dict [process_pdf_with_gemini] returns when anything in its
    [try] block raises. *)
Definition extraction_failed : invoice :=
  {| vendor_name := Some "Extraction Failed";
     invoice_number := Some "N/A";
     total_amount := Some (Num 0.0%float);
     due_date := Some "N/A" |}.

(** [process_pdf_with_gemini], given how its [try] block ends: with the
    dict parsed from the service's JSON, or with an exception. *)
Definition process_pdf_with_gemini (attempt : result invoice) : invoice :=
  match attempt with
  | Ok extracted_data => extracted_data
  | Raised _ => extraction_failed
  end.

(** ** The exact-amount lookup (src/core/reconcile.py) *)

(** The columns of the bank statement file that the lookup reads. *)
Record bank_row : Type := {
  b_date : string;
  b_description : string;
  b_amount : float
}.

(** What the lookup can raise while it reads the invoice. *)
Inductive lookup_error : Type :=
| JSONDecodeError            (* the text is no JSON *)
| KeyError (key : string)    (* the JSON object lacks the key *)
| FloatError (e : exn).      (* float() raised on total_amount *)

(** The three dicts the lookup returns, by status, with the values their
    message is built from. *)
Inductive lookup_message : Type :=
| FileMissing                                           (* "error" *)
| PaymentMatched (amount : float) (date desc : string)  (* "success" *)
| PaymentPending (amount : float) (vendor : string).    (* "warning" *)

Inductive lookup_outcome : Type :=
| LookupRaised (e : lookup_error)
| LookupReturned (m : lookup_message).

(** [df[df['Amount'] == ai_amount]] *)
Definition match_found (ai_amount : float) (df : list bank_row)
  : list bank_row :=
  filter (fun row => (b_amount row =? ai_amount)%float) df.

(** [match_invoice_to_bank]: [ai_invoice_json] is the JSON object that
    [json.loads] reads from the invoice text ([None]: the text is no
    JSON), [bank_csv] the rows of the file at [bank_csv_path], which has
    the columns Date, Description and Amount ([None]: no such file). *)
Definition match_invoice_to_bank (ai_invoice_json : option invoice)
    (bank_csv : option (list bank_row)) : lookup_outcome :=
  match ai_invoice_json with
  | None => LookupRaised JSONDecodeError
  | Some invoice_data =>
      match vendor_name invoice_data with
      | None => LookupRaised (KeyError "vendor_name")
      | Some ai_vendor =>
          match total_amount invoice_data with
          | None => LookupRaised (KeyError "total_amount")
          | Some c =>
              match py_float c with
              | Raised e => LookupRaised (FloatError e)
              | Ok ai_amount =>
                  match bank_csv with
                  | None => LookupReturned FileMissing
                  | Some df =>
                      match match_found ai_amount df with
                      | row :: _ =>
                          LookupReturned
                            (PaymentMatched ai_amount (b_date row)
                                            (b_description row))
                      | [] =>
                          LookupReturned (PaymentPending ai_amount ai_vendor)
                      end
                  end
              end
          end
      end
  end.

(** ** The chat with the AI CFO (src/agents/invoice_agents.py, src/app.py) *)

(** One entry of the chat history. *)
Record message : Type := {
  role : string;
  content : string
}.

Definition nl : string := String (ascii_of_nat 10) EmptyString.

(** The [for] loop of [get_cfo_response] that formats the history. *)
Fixpoint formatted_history (messages : list message) : string :=
  match messages with
  | [] => ""
  | msg :: rest =>
      let label := if String.eqb (role msg) "user" then "User" else "AI CFO" in
      (label ++ ": " ++ content msg ++ nl ++ formatted_history rest)%string
  end.

(** The f-string of [get_cfo_response]. *)
Definition cfo_prompt (context_data history : string) : string :=
  (nl
   ++ "    You are 'Bea', a sharp, highly analytical fractional AI CFO for a startup." ++ nl
   ++ "    Your job is to answer the user's financial questions concisely and professionally." ++ nl
   ++ nl
   ++ "    Here is the company's current financial context (Bank Data & Balances):" ++ nl
   ++ "    " ++ context_data ++ nl
   ++ nl
   ++ "    Here is the conversation history so far:" ++ nl
   ++ "    " ++ history ++ nl
   ++ nl
   ++ "    Respond directly to the user's latest message as Bea the CFO. Keep it actionable and under 3 paragraphs." ++ nl
   ++ "    ")%string.

(** [get_cfo_response]; [model] answers a prompt with the response's
    text, or raises. *)
Definition get_cfo_response (model : string -> result string)
    (messages : list message) (context_data : string) : string :=
  match model (cfo_prompt context_data (formatted_history messages)) with
  | Ok text => PyStr.strip text
  | Raised e =>
      ("System Error: Unable to connect to CFO module. " ++ exn_str e)%string
  end.

(** One rerun of [render_ai_cfo_chat] on the session's chat history:
    [user_input] is what [st.chat_input] returned ([None]: nothing was
    entered). *)
Definition render_ai_cfo_chat (model : string -> result string)
    (context_data : string) (chat_history : list message)
    (user_input : option string) : list message :=
  match user_input with
  | None => chat_history
  | Some "" => chat_history
  | Some text =>
      let with_user :=
        chat_history ++ [{| role := "user"; content := text |}] in
      let ai_response := get_cfo_response model with_user context_data in
      with_user ++ [{| role := "assistant"; content := ai_response |}]
  end.

(** The texts entered over a series of reruns. *)
Fixpoint entered (inputs : list (option string)) : list string :=
  match inputs with
  | [] => []
  | None :: rest => entered rest
  | Some "" :: rest => entered rest
  | Some text :: rest => text :: entered rest
  end.

(** The chat history after a series of reruns, from [chat_history]. *)
Definition chat_session (model : string -> result string)
    (context_data : string) (chat_history : list message)
    (inputs : list (option string)) : list message :=
  fold_left (render_ai_cfo_chat model context_data) inputs chat_history.

Definition from_user (msg : message) : bool := String.eqb (role msg) "user".

(** ** Binary64 comparisons *)

Section Binary64.

Local Open Scope float_scope.

Lemma SFcompare_Eq_finite s1 m1 e1 s2 m2 e2 :
  SFcompare (S754_finite s1 m1 e1) (S754_finite s2 m2 e2) = Some Eq ->
  s1 = s2 /\ m1 = m2 /\ e1 = e2.
Proof.
  simpl. destruct s1, s2; try discriminate.
  - destruct (Z.compare_spec e1 e2); try discriminate.
    intros H0. injection H0 as H0. apply CompOpp_iff in H0. simpl in H0.
    apply Pos.compare_eq in H0. auto.
  - destruct (Z.compare_spec e1 e2); try discriminate.
    intros H0. injection H0 as H0. apply Pos.compare_eq in H0. auto.
Qed.

(** Equal amounts have no gap: [a == b] excludes [abs(a - b) > 0]. *)
Lemma eqb_no_gap (a b : float) :
  (a =? b) = true -> (0 <? abs (a - b)) = false.
Proof.
  rewrite eqb_spec, ltb_spec, abs_spec, sub_spec.
  change (Prim2SF 0) with (S754_zero false).
  unfold SFeqb, SF64sub.
  destruct (Prim2SF a) as [sa|sa| |sa ma ea], (Prim2SF b) as [sb|sb| |sb mb eb];
    try (destruct sa); try (destruct sb); try discriminate; try reflexivity.
  all: destruct (SFcompare _ _) as [[]|] eqn:E; try discriminate; intros _;
    apply SFcompare_Eq_finite in E; destruct E as (Hs & Hm & He);
    try discriminate; subst; unfold SFsub; rewrite Z.sub_diag; reflexivity.
Qed.

Lemma SFcompare_Lt_Gt x y :
  SFcompare x y = Some Lt -> SFcompare y x = Some Gt.
Proof.
  destruct x as [sx|sx| |sx mx ex], y as [sy|sy| |sy my ey];
    cbn [SFcompare];
    try (destruct sx); try (destruct sy); try discriminate; try reflexivity.
  all: change (Pos.compare_cont Eq mx my) with (Pos.compare mx my);
    change (Pos.compare_cont Eq my mx) with (Pos.compare my mx);
    rewrite (Z.compare_antisym ey ex), (Pos.compare_antisym my mx);
    destruct (ey ?= ex)%Z; cbn [CompOpp]; try discriminate; try reflexivity;
    destruct (my ?= mx)%positive; cbn [CompOpp]; try discriminate; reflexivity.
Qed.

(** A gap above the bound is not within it: [x < y] excludes [y <= x]. *)
Lemma ltb_not_leb (x y : float) : (x <? y) = true -> (y <=? x) = false.
Proof.
  rewrite ltb_spec, leb_spec. unfold SFltb, SFleb.
  destruct (SFcompare (Prim2SF x) (Prim2SF y)) as [[]|] eqn:E; try discriminate.
  intros _. rewrite (SFcompare_Lt_Gt _ _ E). reflexivity.
Qed.

End Binary64.

(** ** Runs of programs *)

Ltac inv_runs :=
  repeat match goal with
  | H : runs _ _ (Ret _) _ _ |- _ => inversion H; subst; clear H
  | H : runs _ _ (Throw _) _ _ |- _ => inversion H; subst; clear H
  | H : runs _ _ (Score _ _ _) _ _ |- _ => inversion H; subst; clear H
  | H : runs _ _ (Generate _ _) _ _ |- _ => inversion H; subst; clear H
  | H : runs _ _ (Print _ _) _ _ |- _ => inversion H; subst; clear H
  end.

Section Runs.

Context {A : Type}.
Variable scorer : string -> string -> result Z.

(** A service that answers as a function has exactly the run that [run]
    computes. *)
Lemma run_runs (service : prompt -> gen_reply) (p : prog A) :
  runs scorer (fun q reply => service q = reply) p
       (fst (run scorer service p)) (snd (run scorer service p)).
Proof.
  induction p as [a|e|a b k IH|q k IH|msg k IH]; simpl.
  - constructor.
  - constructor.
  - destruct (scorer a b) as [n|e] eqn:E; simpl.
    + eapply runs_Score; eauto.
    + now apply runs_Score_raised.
  - eapply runs_Generate; eauto.
  - now constructor.
Qed.

(** When the service gives one answer to each request, a program has
    one run. *)
Lemma runs_deterministic (service : prompt -> gen_reply -> Prop) :
  (forall q a b, service q a -> service q b -> a = b) ->
  forall (p : prog A) l1 r1, runs scorer service p l1 r1 ->
  forall l2 r2, runs scorer service p l2 r2 -> l1 = l2 /\ r1 = r2.
Proof.
  intros Hfun p l1 r1 H1.
  induction H1 as [a|e|a b k n l r Hs _ IH|a b k e Hs|q k reply l r Hq _ IH
                  |msg k l r _ IH]; intros l2 r2 H2; inv_runs;
    try (split; congruence); try congruence.
  - match goal with
    | E : scorer a b = Ok ?m |- _ => assert (m = n) by congruence; subst m
    end.
    match goal with
    | H : runs _ _ (k n) ?l' ?r' |- _ => destruct (IH _ _ H) as [-> ->]
    end.
    now split.
  - match goal with
    | E : service q ?x |- _ =>
        assert (x = reply) by (eapply Hfun; eassumption); subst x
    end.
    match goal with
    | H : runs _ _ (k reply) ?l' ?r' |- _ => destruct (IH _ _ H) as [-> ->]
    end.
    now split.
  - match goal with
    | H : runs _ _ k ?l' ?r' |- _ => destruct (IH _ _ H) as [-> ->]
    end.
    now split.
Qed.

End Runs.

(** ** The loop *)

Section LoopFacts.

Variable scorer : string -> string -> result Z.
Variables (inv_vendor inv_num : string) (inv_amount : float).

Let loop := scan inv_vendor inv_num inv_amount.
Let loop_body := body inv_vendor inv_num inv_amount.
Let candidate := fee_candidate scorer inv_vendor inv_num inv_amount.

Lemma fee_rule_true txn_amount text_score :
  fee_rule inv_amount txn_amount text_score = true ->
  60 < text_score /\
  (0 <? abs (inv_amount - txn_amount))%float = true /\
  (abs (inv_amount - txn_amount) <=? inv_amount * 0.05)%float = true.
Proof.
  unfold fee_rule, is_within_fee_range.
  rewrite !andb_true_iff, Z.ltb_lt. tauto.
Qed.

Lemma run_on_reply (service : prompt -> gen_reply) (t : txn)
    (next : prog decision) (reply : gen_reply) :
  run scorer service (on_reply t next reply) =
  match reply with
  | Response text =>
      if accepted reply then ([], Ok (ai_reconciled t text))
      else run scorer service next
  | _ => (refusal_log reply ++ fst (run scorer service next),
          snd (run scorer service next))
  end.
Proof.
  destruct reply as [text| |e]; cbn [on_reply accepted refusal_log].
  - now destruct (PyStr.startswith _ _).
  - now destruct (run scorer service next).
  - reflexivity.
Qed.

(** The run of the loop body is the row's run followed by the run of
    what comes next. *)
Lemma run_body (service : prompt -> gen_reply) (t : txn) (next : prog decision) :
  run scorer service (loop_body t next) =
  then_run (row_run scorer service inv_vendor inv_num inv_amount t)
           (run scorer service next).
Proof.
  unfold loop_body, body, row_run, then_run.
  destruct (is_debit t); cbn [negb].
  2:{ now destruct (run scorer service next). }
  destruct (py_float (t_amount t)) as [txn_amount|e]; [|reflexivity].
  cbn [run].
  destruct (scorer inv_vendor _) as [vendor_match|e]; [|reflexivity].
  destruct (scorer inv_num _) as [num_match|e]; [|reflexivity].
  unfold layers.
  destruct (exact_rule _ _ _); [reflexivity|].
  destruct (fee_rule _ _ _).
  2:{ now destruct (run scorer service next). }
  cbn [run]. rewrite run_on_reply.
  destruct (service _) as [text| |e]; cbn [refusal_log]; try reflexivity.
  now destruct (accepted (Response text)).
Qed.

Lemma run_scan_cons (service : prompt -> gen_reply) (t : txn) (rest : list txn) :
  run scorer service (loop (t :: rest)) =
  then_run (row_run scorer service inv_vendor inv_num inv_amount t)
           (run scorer service (loop rest)).
Proof. apply run_body. Qed.

(** A row on which the function returns is a debit row, and what is
    returned is a match of that row. *)
Lemma row_run_returned (service : prompt -> gen_reply) (t : txn) lg d :
  row_run scorer service inv_vendor inv_num inv_amount t = (lg, Some (Ok d)) ->
  is_debit t = true /\
  (d = exact_match t \/ exists text, d = ai_reconciled t text).
Proof.
  unfold row_run.
  destruct (is_debit t); cbn [negb]; [|discriminate].
  destruct (py_float (t_amount t)) as [txn_amount|e]; [|discriminate].
  destruct (scorer inv_vendor _) as [vendor_match|e]; [|discriminate].
  destruct (scorer inv_num _) as [num_match|e]; [|discriminate].
  destruct (exact_rule _ _ _).
  { intros [= _ <-]. split; [reflexivity|now left]. }
  destruct (fee_rule _ _ _); [|discriminate].
  destruct (service _) as [text| |e]; try discriminate.
  destruct (accepted (Response text)); [|discriminate].
  intros [= _ <-]. split; [reflexivity|]. right. now exists text.
Qed.

Lemma match_not_no_match (t : txn) (d : decision) :
  d = exact_match t \/ (exists text, d = ai_reconciled t text) ->
  d <> no_match.
Proof. intros [->|[text ->]]; discriminate. Qed.

(** When the loop over [pre] alone runs to its end, the loop over
    [pre ++ rest] makes the same calls and then goes on with [rest]. *)
Lemma run_scan_app (service : prompt -> gen_reply) (pre rest : list txn) :
  forall l, run scorer service (loop pre) = (l, Ok no_match) ->
  run scorer service (loop (pre ++ rest)) =
  (l ++ fst (run scorer service (loop rest)),
   snd (run scorer service (loop rest))).
Proof.
  induction pre as [|t pre IH]; intros l H.
  - unfold loop in H. cbn in H. injection H as <-.
    cbn [app]. now destruct (run scorer service (loop rest)).
  - rewrite <- app_comm_cons, run_scan_cons. rewrite run_scan_cons in H.
    destruct (row_run scorer service inv_vendor inv_num inv_amount t)
      as [lg [r|]] eqn:R; unfold then_run in *; cbn [fst snd] in *.
    + injection H as <- ->.
      destruct (row_run_returned _ _ _ _ R) as [_ Hd].
      now apply match_not_no_match in Hd.
    + destruct (run scorer service (loop pre)) as [l0 r0] eqn:P.
      cbn [fst snd] in H. injection H as <- ->.
      rewrite (IH l0 eq_refl). cbn [fst snd]. now rewrite app_assoc.
Qed.

(** The loop reaches row [t] when the rows before it run to the end. *)
Lemma run_scan_reach (service : prompt -> gen_reply) (pre post : list txn)
    (t : txn) l :
  run scorer service (loop pre) = (l, Ok no_match) ->
  run scorer service (loop (pre ++ t :: post)) =
  then_run (l ++ fst (row_run scorer service inv_vendor inv_num inv_amount t),
            snd (row_run scorer service inv_vendor inv_num inv_amount t))
           (run scorer service (loop post)).
Proof.
  intros H. rewrite (run_scan_app service pre (t :: post) l H), run_scan_cons.
  unfold then_run.
  destruct (row_run scorer service inv_vendor inv_num inv_amount t) as [lg [r|]];
    cbn [fst snd]; [reflexivity|].
  now rewrite app_assoc.
Qed.

Lemma service_calls_app (l1 l2 : list event) :
  service_calls (l1 ++ l2) = service_calls l1 ++ service_calls l2.
Proof.
  induction l1 as [|[a b|p|msg] l1 IH]; cbn [app service_calls];
    now rewrite ?IH.
Qed.

(** Every run of the loop body on row [t], whatever the service answers:
    a request was sent only if [t] is a fee candidate, and the run either
    goes on with [next] or ends; when it ends with a decision, that is a
    match of [t], a debit row. *)
Lemma runs_body_inv (service : prompt -> gen_reply -> Prop) (t : txn)
    (next : prog decision) l r :
  runs scorer service (loop_body t next) l r ->
  (forall p, In p (service_calls l) ->
     candidate t p \/ exists l', In p (service_calls l') /\
                                 runs scorer service next l' r) /\
  ((exists l', runs scorer service next l' r) \/
   forall d, r = Ok d ->
     is_debit t = true /\
     (d = exact_match t \/ exists text, d = ai_reconciled t text)).
Proof.
  unfold loop_body, body. intros H.
  destruct (is_debit t) eqn:D; cbn [negb] in H.
  2:{ split; [intros p Hp; right|left]; eauto. }
  destruct (py_float (t_amount t)) as [txn_amount|e] eqn:F.
  2:{ inv_runs. split; [intros p []|right; discriminate]. }
  inversion H as [| |a b k vendor_match l1 r1 Hv H1|a b k e Hv| |]; subst; clear H.
  2:{ split; [intros p []|right; discriminate]. }
  inversion H1 as [| |a b k num_match l2 r2 Hn H2|a b k e Hn| |]; subst; clear H1.
  2:{ split; [intros p []|right; discriminate]. }
  unfold layers in H2. cbn [service_calls].
  destruct (exact_rule inv_amount txn_amount (Z.max vendor_match num_match)) eqn:X.
  { inv_runs. split; [intros p []|right].
    intros d [= <-]. split; [reflexivity|now left]. }
  destruct (fee_rule inv_amount txn_amount (Z.max vendor_match num_match)) eqn:Fee.
  2:{ split; [intros p Hp; right|left]; eauto. }
  inversion H2 as [| | | |q k reply l3 r3 Hq H3|]; subst; clear H2.
  assert (Hcand : candidate t (request inv_vendor inv_num inv_amount
                                 (PyStr.lower (t_description t)) txn_amount)).
  { split; [exact D|]. exists txn_amount, vendor_match, num_match.
    destruct (fee_rule_true _ _ Fee) as (? & ? & ?). cbn zeta. tauto. }
  cbn [service_calls].
  destruct reply as [text| |e]; cbn [on_reply] in H3.
  - destruct (PyStr.startswith (PyStr.upper (PyStr.strip text)) "YES").
    + inv_runs. split.
      * intros p [<-|[]]. now left.
      * right. intros d [= <-]. split; [reflexivity|]. right. now exists text.
    + split; [|left; eauto].
      intros p [<-|Hp]; [now left|right; eauto].
  - split; [|left; eauto].
    intros p [<-|Hp]; [now left|right; eauto].
  - inversion H3 as [| | | | |msg k l4 r4 H4]; subst; clear H3.
    cbn [service_calls]. split; [|left; eauto].
    intros p [<-|Hp]; [now left|right; eauto].
Qed.

(** Every run of the loop: each request in the log was sent for a fee
    candidate among the rows, and a returned decision is the final
    Pending or a match of a debit row. *)
Lemma runs_scan_inv (service : prompt -> gen_reply -> Prop) (rows : list txn) :
  forall l r, runs scorer service (loop rows) l r ->
  (forall p, In p (service_calls l) ->
     exists t, In t rows /\ candidate t p) /\
  (forall d, r = Ok d ->
     d = no_match \/
     exists t, In t rows /\ is_debit t = true /\
       (d = exact_match t \/ exists text, d = ai_reconciled t text)).
Proof.
  induction rows as [|t rest IH]; intros l r H.
  - unfold loop in H. cbn in H. inv_runs. split.
    + intros p [].
    + intros d [= <-]. now left.
  - apply runs_body_inv in H. destruct H as [Hcalls Hend]. split.
    + intros p Hp. destruct (Hcalls p Hp) as [Hc|(l' & Hp' & H')].
      * exists t. split; [now left|assumption].
      * destruct (IH _ _ H') as [IH1 _].
        destruct (IH1 p Hp') as (t0 & ? & ?).
        exists t0. split; [now right|assumption].
    + intros d ->. destruct Hend as [(l' & H')|Hend].
      * destruct (IH _ _ H') as [_ IH2].
        destruct (IH2 d eq_refl) as [?|(t0 & ? & ?)]; [now left|].
        right. exists t0. split; [now right|assumption].
      * right. exists t. split; [now left|]. now apply Hend.
Qed.

Lemma text_score_Ok (t : txn) (score : Z) :
  text_score scorer inv_vendor inv_num t = Ok score ->
  exists vendor_match num_match,
    scorer inv_vendor (PyStr.lower (t_description t)) = Ok vendor_match /\
    scorer inv_num (PyStr.lower (t_description t)) = Ok num_match /\
    score = Z.max vendor_match num_match.
Proof.
  unfold text_score.
  destruct (scorer inv_vendor _) as [v|e]; [|discriminate].
  destruct (scorer inv_num _) as [n|e]; [|discriminate].
  intros [= <-]. now exists v, n.
Qed.

(** The row's run on a debit row that meets the exact-match rule. *)
Lemma row_run_exact (service : prompt -> gen_reply) (t : txn)
    (txn_amount : float) (score : Z) :
  is_debit t = true ->
  py_float (t_amount t) = Ok txn_amount ->
  text_score scorer inv_vendor inv_num t = Ok score ->
  exact_rule inv_amount txn_amount score = true ->
  row_run scorer service inv_vendor inv_num inv_amount t =
  ([Scored inv_vendor (PyStr.lower (t_description t));
    Scored inv_num (PyStr.lower (t_description t))],
   Some (Ok (exact_match t))).
Proof.
  intros D F S X. apply text_score_Ok in S. destruct S as (v & n & Hv & Hn & ->).
  unfold row_run. now rewrite D, F, Hv, Hn, X.
Qed.

(** The row's run on a debit row that the exact-match rule leaves and the
    fee rule takes: the service is asked, and its answer decides. *)
Lemma row_run_fee (service : prompt -> gen_reply) (t : txn)
    (txn_amount : float) (score : Z) :
  is_debit t = true ->
  py_float (t_amount t) = Ok txn_amount ->
  text_score scorer inv_vendor inv_num t = Ok score ->
  exact_rule inv_amount txn_amount score = false ->
  fee_rule inv_amount txn_amount score = true ->
  let txn_desc := PyStr.lower (t_description t) in
  let q := request inv_vendor inv_num inv_amount txn_desc txn_amount in
  row_run scorer service inv_vendor inv_num inv_amount t =
  match service q with
  | Response text =>
      if accepted (Response text)
      then ([Scored inv_vendor txn_desc; Scored inv_num txn_desc; Generated q],
            Some (Ok (ai_reconciled t text)))
      else ([Scored inv_vendor txn_desc; Scored inv_num txn_desc; Generated q],
            None)
  | reply =>
      (Scored inv_vendor txn_desc :: Scored inv_num txn_desc :: Generated q
         :: refusal_log reply, None)
  end.
Proof.
  intros D F S X Fee. apply text_score_Ok in S.
  destruct S as (v & n & Hv & Hn & ->).
  unfold row_run. now rewrite D, F, Hv, Hn, X, Fee.
Qed.

(** A gap above 0 within the bound, with a text score above 60, is a case
    of the fee rule and not of the exact-match rule. *)
Lemma fee_rule_intro (txn_amount : float) (score : Z) :
  60 < score ->
  (0 <? abs (inv_amount - txn_amount))%float = true ->
  (abs (inv_amount - txn_amount) <=? inv_amount * 0.05)%float = true ->
  exact_rule inv_amount txn_amount score = false /\
  fee_rule inv_amount txn_amount score = true.
Proof.
  intros Hs Hgap Hle. unfold exact_rule, fee_rule, is_within_fee_range. split.
  - destruct (inv_amount =? txn_amount)%float eqn:E; [|reflexivity].
    apply eqb_no_gap in E. congruence.
  - rewrite Hgap, Hle. apply Z.ltb_lt in Hs. now rewrite Hs.
Qed.

(** A row without exception and without exact match, whose request (if
    it is a fee candidate) the service refuses, lets the loop go on. *)
Lemma row_run_refused (service : prompt -> gen_reply) (t : txn) :
  inexact_row scorer inv_vendor inv_num inv_amount t ->
  refused_row scorer service inv_vendor inv_num inv_amount t ->
  snd (row_run scorer service inv_vendor inv_num inv_amount t) = None.
Proof.
  intros Hrow Hno. unfold row_run.
  destruct (is_debit t) eqn:D; cbn [negb]; [|reflexivity].
  destruct (Hrow D) as (txn_amount & score & F & S & X).
  apply text_score_Ok in S. destruct S as (v & n & Hv & Hn & ->).
  rewrite F, Hv, Hn, X.
  destruct (fee_rule _ _ _) eqn:Fee; [|reflexivity].
  assert (Hq : accepted (service (request inv_vendor inv_num inv_amount
                 (PyStr.lower (t_description t)) txn_amount)) = false).
  { apply Hno. split; [exact D|]. exists txn_amount, v, n.
    destruct (fee_rule_true _ _ Fee) as (? & ? & ?). cbn zeta. tauto. }
  destruct (service _) as [text| |e]; try reflexivity.
  now rewrite Hq.
Qed.

Lemma run_scan_all_refused (service : prompt -> gen_reply) (rows : list txn) :
  Forall (inexact_row scorer inv_vendor inv_num inv_amount) rows ->
  Forall (refused_row scorer service inv_vendor inv_num inv_amount) rows ->
  snd (run scorer service (loop rows)) = Ok no_match.
Proof.
  intros Hrows. induction Hrows as [|t rest Ht _ IH]; [reflexivity|].
  intros Hno. inversion Hno as [|t' rest' Hno1 Hno2]; subst.
  rewrite run_scan_cons. unfold then_run.
  rewrite (row_run_refused service t Ht Hno1). now apply IH.
Qed.

Lemma same_but_status_fields (t1 t2 : txn) :
  same_but_status t1 t2 ->
  t_id t1 = t_id t2 /\ t_description t1 = t_description t2 /\
  t_amount t1 = t_amount t2 /\ t_type t1 = t_type t2.
Proof.
  unfold same_but_status, with_status. intros [= ? ? ? ? ? ?]. tauto.
Qed.

Lemma same_but_status_matches (t1 t2 : txn) (text : string) :
  same_but_status t1 t2 ->
  same_decision_but_status (exact_match t1) (exact_match t2) /\
  same_decision_but_status (ai_reconciled t1 text) (ai_reconciled t2 text).
Proof.
  intros H. destruct (same_but_status_fields t1 t2 H) as (Hid & _).
  unfold same_decision_but_status, exact_match, ai_reconciled.
  cbn [status transaction_id confidence reason matched_data].
  rewrite Hid. repeat split; assumption.
Qed.

(** Two rows that differ at most in their [status] have the same row run,
    up to the [status] inside a returned snapshot. *)
Lemma row_run_same_but_status (service : prompt -> gen_reply) (t1 t2 : txn) :
  same_but_status t1 t2 ->
  fst (row_run scorer service inv_vendor inv_num inv_amount t1) =
  fst (row_run scorer service inv_vendor inv_num inv_amount t2) /\
  match snd (row_run scorer service inv_vendor inv_num inv_amount t1),
        snd (row_run scorer service inv_vendor inv_num inv_amount t2) with
  | Some r1, Some r2 => same_result_but_status r1 r2
  | None, None => True
  | _, _ => False
  end.
Proof.
  intros H. destruct (same_but_status_fields t1 t2 H) as (Hid & Hdesc & Ham & Hty).
  unfold row_run, is_debit. rewrite Hty, Hdesc, Ham.
  destruct (String.eqb _ "debit"); cbn [negb]; [|now split].
  destruct (py_float (t_amount t2)) as [txn_amount|e]; [|now split].
  destruct (scorer inv_vendor _) as [v|e]; [|now split].
  destruct (scorer inv_num _) as [n|e]; [|now split].
  destruct (exact_rule _ _ _).
  { split; [reflexivity|]. apply (same_but_status_matches t1 t2 "" H). }
  destruct (fee_rule _ _ _); [|now split].
  destruct (service _) as [text| |e]; try now split.
  destruct (accepted (Response text)); [|now split].
  split; [reflexivity|]. apply (same_but_status_matches t1 t2 text H).
Qed.

Lemma run_scan_same_but_status (service : prompt -> gen_reply)
    (rows1 rows2 : list txn) :
  Forall2 same_but_status rows1 rows2 ->
  fst (run scorer service (loop rows1)) = fst (run scorer service (loop rows2)) /\
  same_result_but_status (snd (run scorer service (loop rows1)))
                         (snd (run scorer service (loop rows2))).
Proof.
  induction 1 as [|t1 t2 rest1 rest2 Ht _ [IHl IHr]].
  - split; [reflexivity|]. cbn. repeat split.
  - rewrite !run_scan_cons. unfold then_run.
    destruct (row_run_same_but_status service t1 t2 Ht) as [Hl Hr].
    destruct (snd (row_run _ _ _ _ _ t1)) as [r1|],
             (snd (row_run _ _ _ _ _ t2)) as [r2|]; try contradiction;
      cbn [fst snd].
    + now split.
    + split; [now rewrite Hl, IHl|assumption].
Qed.

End LoopFacts.

(** The whole function on a sequence whose rows before [t] run to the
    end of the loop. *)
Lemma run_reconcile_reach (scorer : string -> string -> result Z)
    (service : prompt -> gen_reply) (invoice_data : invoice)
    (pre post : list txn) (t : txn) (inv_amount : float) (l : list event) :
  invoice_amount invoice_data = Ok inv_amount ->
  run scorer service
      (scan (invoice_vendor invoice_data) (invoice_num invoice_data)
            inv_amount pre) = (l, Ok no_match) ->
  run scorer service
      (reconcile_invoice_with_ai invoice_data (pre ++ t :: post)) =
  then_run
    (l ++ fst (row_run scorer service (invoice_vendor invoice_data)
                 (invoice_num invoice_data) inv_amount t),
     snd (row_run scorer service (invoice_vendor invoice_data)
            (invoice_num invoice_data) inv_amount t))
    (run scorer service
         (scan (invoice_vendor invoice_data) (invoice_num invoice_data)
               inv_amount post)).
Proof.
  intros Ha H. unfold reconcile_invoice_with_ai. rewrite Ha.
  rewrite <- (run_scan_reach scorer _ _ _ service pre post t l H).
  now destruct pre.
Qed.

(** ** Runs of the loop, row by row *)

Section LoopEnds.

Variable scorer : string -> string -> result Z.
Variable service : prompt -> gen_reply -> Prop.
Variables (inv_vendor inv_num : string) (inv_amount : float).

Lemma text_score_of_scores (t : txn) (v n : Z) :
  scorer inv_vendor (PyStr.lower (t_description t)) = Ok v ->
  scorer inv_num (PyStr.lower (t_description t)) = Ok n ->
  text_score scorer inv_vendor inv_num t = Ok (Z.max v n).
Proof. intros Hv Hn. unfold text_score. now rewrite Hv, Hn. Qed.

(** Every run of the loop body is one of the ways of [row_end]. *)
Lemma runs_body_row_end (t : txn) (next : prog decision) l r :
  runs scorer service (body inv_vendor inv_num inv_amount t next) l r ->
  exists l0 o,
    row_end scorer service inv_vendor inv_num inv_amount t l0 o /\
    match o with
    | Some r0 => l = l0 /\ r = r0
    | None => exists l', l = l0 ++ l' /\ runs scorer service next l' r
    end.
Proof.
  unfold body. intros H.
  destruct (is_debit t) eqn:D; cbn [negb] in H.
  2:{ exists [], None. split; [now constructor|]. now exists l. }
  destruct (py_float (t_amount t)) as [txn_amount|e] eqn:F.
  2:{ inv_runs. exists [], (Some (Raised e)). split; [now constructor|now split]. }
  inversion H as [| |a b k v l1 r1 Hv H1|a b k e Hv| |]; subst; clear H.
  2:{ eexists _, (Some (Raised e)). split; [|split; reflexivity].
      eapply end_first_score_raised; eassumption. }
  inversion H1 as [| |a b k n l2 r2 Hn H2|a b k e Hn| |]; subst; clear H1.
  2:{ eexists _, (Some (Raised e)). split; [|split; reflexivity].
      eapply end_second_score_raised; eassumption. }
  assert (S := text_score_of_scores t v n Hv Hn).
  unfold layers in H2.
  destruct (exact_rule inv_amount txn_amount (Z.max v n)) eqn:X.
  { inv_runs. eexists _, (Some (Ok (exact_match t))).
    split; [|split; reflexivity]. eapply end_exact; eassumption. }
  destruct (fee_rule inv_amount txn_amount (Z.max v n)) eqn:Fee.
  2:{ eexists _, None. split; [eapply end_no_rule; eassumption|].
      now exists l2. }
  inversion H2 as [| | | |q k reply l3 r3 Hq H3|]; subst; clear H2.
  destruct (accepted reply) eqn:Acc.
  - destruct reply as [text| |e]; try discriminate Acc.
    cbn [on_reply] in H3. cbn [accepted] in Acc. rewrite Acc in H3. inv_runs.
    eexists _, (Some (Ok (ai_reconciled t text))).
    split; [|split; reflexivity]. eapply end_accepted; eassumption.
  - eexists _, None. split; [eapply end_refused; eassumption|].
    destruct reply as [text| |e]; cbn [on_reply refusal_log] in *.
    + cbn [accepted] in Acc. rewrite Acc in H3. now exists l3.
    + now exists l3.
    + inversion H3 as [| | | | |msg k l4 r4 H4]; subst; clear H3.
      now exists l4.
Qed.

(** Every run of the loop is one of the ways of [scan_end]. *)
Lemma runs_scan_end (rows : list txn) :
  forall l r,
    runs scorer service (scan inv_vendor inv_num inv_amount rows) l r ->
    scan_end scorer service inv_vendor inv_num inv_amount rows l r.
Proof.
  induction rows as [|t rest IH]; intros l r H.
  - cbn in H. inv_runs. constructor.
  - cbn [scan] in H. apply runs_body_row_end in H.
    destruct H as (l0 & [r0|] & Hrow & H).
    + destruct H as [-> ->]. now apply scan_end_stop.
    + destruct H as (l' & -> & H'). apply scan_end_next; auto.
Qed.

End LoopEnds.

(** How a run of the whole function relates to the loop. *)
Lemma runs_reconcile_cases (scorer : string -> string -> result Z)
    (service : prompt -> gen_reply -> Prop) (invoice_data : invoice)
    (transactions_df : list txn) (l : list event) (r : result decision) :
  runs scorer service
       (reconcile_invoice_with_ai invoice_data transactions_df) l r ->
  (transactions_df = [] /\ l = [] /\ r = Ok no_transactions) \/
  (transactions_df <> [] /\
   exists e, invoice_amount invoice_data = Raised e /\ l = [] /\ r = Raised e) \/
  (transactions_df <> [] /\
   exists inv_amount,
     invoice_amount invoice_data = Ok inv_amount /\
     scan_end scorer service (invoice_vendor invoice_data)
       (invoice_num invoice_data) inv_amount transactions_df l r).
Proof.
  unfold reconcile_invoice_with_ai. intros H.
  destruct transactions_df as [|t rest]; [inv_runs; now left|right].
  destruct (invoice_amount invoice_data) as [inv_amount|e].
  - right. split; [discriminate|]. exists inv_amount. split; [reflexivity|].
    now apply runs_scan_end.
  - left. inv_runs. split; [discriminate|]. now exists e.
Qed.

Ltac same_values :=
  repeat match goal with
  | H : text_score _ _ _ _ = Ok _ |- _ =>
      apply text_score_Ok in H; destruct H as (? & ? & ? & ? & ->)
  | H1 : ?x = Ok ?a, H2 : ?x = Ok ?b |- _ =>
      assert (a = b) by congruence; subst b; clear H2
  | H1 : ?x = Raised ?a, H2 : ?x = Raised ?b |- _ =>
      assert (a = b) by congruence; subst b; clear H2
  end.

Section OneRun.

Variable scorer : string -> string -> result Z.
Variable service : prompt -> gen_reply -> Prop.
Variables (inv_vendor inv_num : string) (inv_amount : float).

(** The service gives one answer to the request of row [t], should [t]
    be a fee candidate. *)
Let answers_once (t : txn) : Prop :=
  forall q a b,
    fee_candidate scorer inv_vendor inv_num inv_amount t q ->
    service q a -> service q b -> a = b.

(** On a row whose request the service answers in one way, the loop body
    can go only one way. *)
Lemma row_end_unique (t : txn) l1 o1 l2 o2 :
  answers_once t ->
  row_end scorer service inv_vendor inv_num inv_amount t l1 o1 ->
  row_end scorer service inv_vendor inv_num inv_amount t l2 o2 ->
  l1 = l2 /\ o1 = o2.
Proof.
  intros Hdet H1 H2.
  assert (Hcand : forall txn_amount v n,
            is_debit t = true ->
            py_float (t_amount t) = Ok txn_amount ->
            scorer inv_vendor (PyStr.lower (t_description t)) = Ok v ->
            scorer inv_num (PyStr.lower (t_description t)) = Ok n ->
            exact_rule inv_amount txn_amount (Z.max v n) = false ->
            fee_rule inv_amount txn_amount (Z.max v n) = true ->
            fee_candidate scorer inv_vendor inv_num inv_amount t
              (request inv_vendor inv_num inv_amount
                 (PyStr.lower (t_description t)) txn_amount)).
  { intros x v n D F Hv Hn X Fee. split; [exact D|]. exists x, v, n.
    destruct (fee_rule_true _ _ _ Fee) as (? & ? & ?). cbn zeta. tauto. }
  destruct H1; destruct H2; same_values; try congruence;
    try (split; reflexivity).
  - match goal with
    | Ha : service _ (Response ?x), Hb : service _ (Response ?y) |- _ =>
        assert (E : Response x = Response y)
          by (eapply Hdet; [eapply Hcand|exact Ha|exact Hb]; eassumption);
        injection E as <-
    end.
    split; reflexivity.
  - match goal with
    | Ha : service _ (Response ?x), Hb : service _ ?y |- _ =>
        assert (E : Response x = y)
          by (eapply Hdet; [eapply Hcand|exact Ha|exact Hb]; eassumption);
        subst y
    end.
    congruence.
  - match goal with
    | Ha : service _ ?y, Hb : service _ (Response ?x) |- _ =>
        assert (E : y = Response x)
          by (eapply Hdet; [eapply Hcand|exact Ha|exact Hb]; eassumption);
        subst y
    end.
    congruence.
  - match goal with
    | Ha : service _ ?x, Hb : service _ ?y |- _ =>
        assert (E : x = y)
          by (eapply Hdet; [eapply Hcand|exact Ha|exact Hb]; eassumption);
        subst y
    end.
    split; reflexivity.
Qed.

(** When the service gives one answer to the request of each fee
    candidate among [rows], the loop over [rows] has one run. *)
Lemma scan_end_unique (rows : list txn) l1 r1 :
  scan_end scorer service inv_vendor inv_num inv_amount rows l1 r1 ->
  forall l2 r2,
    Forall answers_once rows ->
    scan_end scorer service inv_vendor inv_num inv_amount rows l2 r2 ->
    l1 = l2 /\ r1 = r2.
Proof.
  induction 1 as [|t rest l r Hrow|t rest l0 l r Hrow Hrest IH];
    intros l2 r2 Hdet H2.
  - inversion H2; subst. now split.
  - inversion Hdet as [|t' rest' Ht Hr]; subst.
    inversion H2 as [|t' rest' l' r' Hrow'|t' rest' l0' l' r' Hrow' Hrest'];
      subst.
    + destruct (row_end_unique t _ _ _ _ Ht Hrow Hrow') as [-> [= ->]].
      now split.
    + destruct (row_end_unique t _ _ _ _ Ht Hrow Hrow') as [_ [=]].
  - inversion Hdet as [|t' rest' Ht Hr]; subst.
    inversion H2 as [|t' rest' l' r' Hrow'|t' rest' l0' l' r' Hrow' Hrest'];
      subst.
    + destruct (row_end_unique t _ _ _ _ Ht Hrow Hrow') as [_ [=]].
    + destruct (row_end_unique t _ _ _ _ Ht Hrow Hrow') as [-> _].
      destruct (IH _ _ Hr Hrest') as [-> ->]. now split.
Qed.

End OneRun.

(** * Properties of the matcher *)

(** C1, as stated, fails: the first row is a debit within the fee
    tolerance that the service accepts, the second row is a debit with
    the invoice's exact amount and a text score of 100; the function
    returns AI Reconciled for the first row and never reaches the
    second. *)
Lemma C1_counterexample :
  let inv := acme_invoice (Some (Num 1000%float)) in
  let first := acme_row 1 (Num 975%float) "debit" "Unreconciled" in
  let second := acme_row 2 (Num 1000%float) "debit" "Unreconciled" in
  invoice_amount inv = Ok 1000%float /\
  is_debit second = true /\
  py_float (t_amount second) = Ok 1000%float /\
  (1000 =? 1000)%float = true /\
  text_score occurs_scorer (invoice_vendor inv) (invoice_num inv) second
    = Ok 100 /\
  (1000 =? 975)%float = false /\
  run occurs_scorer says_yes (reconcile_invoice_with_ai inv [first; second]) =
  ([Scored "acme corp" "acme corp payment";
    Scored "inv-1042" "acme corp payment";
    Generated (request "acme corp" "inv-1042" 1000 "acme corp payment" 975)],
   Ok (ai_reconciled first "YES, likely a processing fee.")).
Proof. vm_compute. repeat split. Qed.

(** C1, amended: a debit row [t] whose amount equals the parsed invoice
    amount and whose text score is above 50 is returned as Exact Match,
    with confidence 100%, its id and the whole row as snapshot, when the
    loop over the rows before [t] runs to its end, that is, none of them
    is returned as a match under either rule and none raises.  The calls
    made are those for the rows before [t] and the two scorer calls for
    [t]: the rows after [t] are neither examined nor scored, whatever
    they hold. *)
Theorem C1_first_exact_match
    (scorer : string -> string -> result Z) (service : prompt -> gen_reply)
    (invoice_data : invoice) (pre post : list txn) (t : txn)
    (inv_amount txn_amount : float) (score : Z) (l : list event) :
  invoice_amount invoice_data = Ok inv_amount ->
  run scorer service
      (scan (invoice_vendor invoice_data) (invoice_num invoice_data)
            inv_amount pre) = (l, Ok no_match) ->
  is_debit t = true ->
  py_float (t_amount t) = Ok txn_amount ->
  text_score scorer (invoice_vendor invoice_data) (invoice_num invoice_data) t
    = Ok score ->
  (inv_amount =? txn_amount)%float = true ->
  50 < score ->
  run scorer service
      (reconcile_invoice_with_ai invoice_data (pre ++ t :: post)) =
  (l ++ [Scored (invoice_vendor invoice_data) (PyStr.lower (t_description t));
         Scored (invoice_num invoice_data) (PyStr.lower (t_description t))],
   Ok (exact_match t)) /\
  status (exact_match t) = ExactMatch /\
  confidence (exact_match t) = Some "100%" /\
  transaction_id (exact_match t) = Some (t_id t) /\
  matched_data (exact_match t) = Some t.
Proof.
  intros Ha Hpre D F S E Hs. split; [|repeat split].
  rewrite (run_reconcile_reach _ _ _ _ _ _ _ _ Ha Hpre).
  rewrite (row_run_exact scorer _ _ inv_amount service t txn_amount score D F S).
  - reflexivity.
  - unfold exact_rule. rewrite E. now apply Z.ltb_lt in Hs as ->.
Qed.

Lemma C1_witness :
  let inv := acme_invoice (Some (Num 1000%float)) in
  let credit := acme_row 1 (Num 1000%float) "Credit" "Unreconciled" in
  let far := acme_row 2 (Num 800%float) "Debit" "Unreconciled" in
  let hit := acme_row 3 (Num 1000%float) "Debit" "Reconciled" in
  let later := acme_row 4 (NotNum "N/A") "debit" "Unreconciled" in
  run occurs_scorer says_yes (reconcile_invoice_with_ai inv
                                [credit; far; hit; later]) =
  ([Scored "acme corp" "acme corp payment";
    Scored "inv-1042" "acme corp payment";
    Scored "acme corp" "acme corp payment";
    Scored "inv-1042" "acme corp payment"],
   Ok (exact_match hit)).
Proof.
  cbv zeta.
  refine (proj1 (C1_first_exact_match occurs_scorer says_yes
    (acme_invoice (Some (Num 1000%float)))
    [acme_row 1 (Num 1000%float) "Credit" "Unreconciled";
     acme_row 2 (Num 800%float) "Debit" "Unreconciled"]
    [acme_row 4 (NotNum "N/A") "debit" "Unreconciled"]
    (acme_row 3 (Num 1000%float) "Debit" "Reconciled")
    1000%float 1000%float 100
    [Scored "acme corp" "acme corp payment";
     Scored "inv-1042" "acme corp payment"] _ _ _ _ _ _ _));
    try reflexivity.
Defined.

(** The fee-tolerance rule on the test the code computes: when the loop
    reaches a debit row [t] (the rows before it run to the end of the
    loop) whose text score is above 60 and whose binary64 gap
    [abs (inv_amount - txn_amount)] is above 0 and at most the binary64
    product [inv_amount * 0.05], the judgment service is asked, and if
    its answer, trimmed and uppercased, starts with YES, the function
    returns at once AI Reconciled with confidence 90%, the trimmed answer
    as reason, the row's id and the row as snapshot; the rows after [t]
    are not looked at. *)
Theorem accepted_fee_candidate_is_returned
    (scorer : string -> string -> result Z) (service : prompt -> gen_reply)
    (invoice_data : invoice) (pre post : list txn) (t : txn)
    (inv_amount txn_amount : float) (score : Z) (text : string)
    (l : list event) :
  invoice_amount invoice_data = Ok inv_amount ->
  run scorer service
      (scan (invoice_vendor invoice_data) (invoice_num invoice_data)
            inv_amount pre) = (l, Ok no_match) ->
  is_debit t = true ->
  py_float (t_amount t) = Ok txn_amount ->
  text_score scorer (invoice_vendor invoice_data) (invoice_num invoice_data) t
    = Ok score ->
  60 < score ->
  (0 <? abs (inv_amount - txn_amount))%float = true ->
  (abs (inv_amount - txn_amount) <=? inv_amount * 0.05)%float = true ->
  service (request (invoice_vendor invoice_data) (invoice_num invoice_data)
             inv_amount (PyStr.lower (t_description t)) txn_amount)
    = Response text ->
  PyStr.startswith (PyStr.upper (PyStr.strip text)) "YES" = true ->
  run scorer service
      (reconcile_invoice_with_ai invoice_data (pre ++ t :: post)) =
  (l ++ [Scored (invoice_vendor invoice_data) (PyStr.lower (t_description t));
         Scored (invoice_num invoice_data) (PyStr.lower (t_description t));
         Generated (request (invoice_vendor invoice_data)
                      (invoice_num invoice_data) inv_amount
                      (PyStr.lower (t_description t)) txn_amount)],
   Ok (ai_reconciled t text)) /\
  status (ai_reconciled t text) = AIReconciled /\
  confidence (ai_reconciled t text) = Some "90%" /\
  reason (ai_reconciled t text) = PyStr.strip text /\
  transaction_id (ai_reconciled t text) = Some (t_id t) /\
  matched_data (ai_reconciled t text) = Some t.
Proof.
  intros Ha Hpre D F S Hs Hgap Hle Hreply Hyes. split; [|repeat split].
  destruct (fee_rule_intro inv_amount txn_amount score Hs Hgap Hle) as [X Fee].
  rewrite (run_reconcile_reach _ _ _ _ _ _ _ _ Ha Hpre).
  rewrite (row_run_fee scorer _ _ inv_amount service t txn_amount score D F S X Fee).
  rewrite Hreply. cbn [accepted]. rewrite Hyes. reflexivity.
Qed.

Lemma accepted_fee_candidate_example :
  let inv := acme_invoice (Some (Num 1000%float)) in
  let fee := acme_row 5 (Num 975%float) "debit" "Unreconciled" in
  let later := acme_row 6 (Num 1000%float) "debit" "Unreconciled" in
  run occurs_scorer says_yes (reconcile_invoice_with_ai inv [fee; later]) =
  ([Scored "acme corp" "acme corp payment";
    Scored "inv-1042" "acme corp payment";
    Generated (request "acme corp" "inv-1042" 1000 "acme corp payment" 975)],
   Ok (ai_reconciled fee "YES, likely a processing fee.")).
Proof.
  cbv zeta.
  refine (proj1 (accepted_fee_candidate_is_returned occurs_scorer says_yes
    (acme_invoice (Some (Num 1000%float))) []
    [acme_row 6 (Num 1000%float) "debit" "Unreconciled"]
    (acme_row 5 (Num 975%float) "debit" "Unreconciled")
    1000%float 975%float 100 "YES, likely a processing fee." []
    _ _ _ _ _ _ _ _ _ _));
    reflexivity.
Defined.

(** C2, on the code: the tolerance test is computed in binary64, and a
    gap of exactly 5% of the invoice amount can fail it.  For an invoice
    of 21.00 and a debit of 19.95 the gap is 1.05, exactly 5% (in cents:
    2100 - 1995 = 105 and 100 * 105 = 5 * 2100), the text score is 100
    and the service would answer YES; but [21.0 - 19.95] is
    1.0500000000000007 and [21.0 * 0.05] is 1.05, so the inclusive [<=]
    is false, the service is never asked and the function returns
    Pending.  For an invoice of 1000.00 and a debit of 950.00, also a
    gap of exactly 5%, the same test is true and the row is returned as
    AI Reconciled. *)
Theorem C2_exact_five_percent_gap_is_missed :
  let inv := acme_invoice (Some (Num 21%float)) in
  let row := acme_row 1 (Num 19.95%float) "debit" "Unreconciled" in
  let inv' := acme_invoice (Some (Num 1000%float)) in
  let row' := acme_row 1 (Num 950%float) "debit" "Unreconciled" in
  (2100 - 1995 = 105 /\ 100 * 105 = 5 * 2100) /\
  is_debit row = true /\
  text_score occurs_scorer (invoice_vendor inv) (invoice_num inv) row
    = Ok 100 /\
  accepted (says_yes (request (invoice_vendor inv) (invoice_num inv) 21
                        (PyStr.lower (t_description row)) 19.95)) = true /\
  (0 <? abs (21 - 19.95))%float = true /\
  (abs (21 - 19.95) <=? 21 * 0.05)%float = false /\
  run occurs_scorer says_yes (reconcile_invoice_with_ai inv [row]) =
    ([Scored "acme corp" "acme corp payment";
      Scored "inv-1042" "acme corp payment"],
     Ok no_match) /\
  (100000 - 95000 = 5000 /\ 100 * 5000 = 5 * 100000) /\
  (abs (1000 - 950) <=? 1000 * 0.05)%float = true /\
  run occurs_scorer says_yes (reconcile_invoice_with_ai inv' [row']) =
    ([Scored "acme corp" "acme corp payment";
      Scored "inv-1042" "acme corp payment";
      Generated (request "acme corp" "inv-1042" 1000
                         "acme corp payment" 950)],
     Ok (ai_reconciled row' "YES, likely a processing fee.")).
Proof. vm_compute. repeat split. Qed.

(** C3: in every run, whatever the service answers, each request sent to
    the judgment service was sent for a row of the sequence that is a
    debit, on which the exact-match rule did not fire, whose text score
    is above 60 and whose gap [abs (inv_amount - txn_amount)] is above 0
    and at most [inv_amount * 0.05].  So no request is sent when no row is
    a debit, and none when the gap of every debit row exceeds that
    bound. *)
Theorem C3_service_called_only_for_fee_candidates
    (scorer : string -> string -> result Z)
    (service : prompt -> gen_reply -> Prop)
    (invoice_data : invoice) (transactions_df : list txn)
    (l : list event) (r : result decision) :
  runs scorer service
       (reconcile_invoice_with_ai invoice_data transactions_df) l r ->
  (forall p, In p (service_calls l) ->
     exists t inv_amount,
       In t transactions_df /\
       invoice_amount invoice_data = Ok inv_amount /\
       fee_candidate scorer (invoice_vendor invoice_data)
         (invoice_num invoice_data) inv_amount t p) /\
  (Forall (fun t => is_debit t = false) transactions_df ->
     service_calls l = []) /\
  (forall inv_amount,
     invoice_amount invoice_data = Ok inv_amount ->
     Forall (fun t => is_debit t = true ->
               forall txn_amount, py_float (t_amount t) = Ok txn_amount ->
               (inv_amount * 0.05 <? abs (inv_amount - txn_amount))%float = true)
            transactions_df ->
     service_calls l = []).
Proof.
  intros H.
  assert (Hcalls : forall p, In p (service_calls l) ->
     exists t inv_amount,
       In t transactions_df /\
       invoice_amount invoice_data = Ok inv_amount /\
       fee_candidate scorer (invoice_vendor invoice_data)
         (invoice_num invoice_data) inv_amount t p).
  { unfold reconcile_invoice_with_ai in H.
    destruct transactions_df as [|t rest]; [inv_runs; intros p []|].
    destruct (invoice_amount invoice_data) as [inv_amount|e];
      [|inv_runs; intros p []].
    apply runs_scan_inv in H. destruct H as [H _].
    intros p Hp. destruct (H p Hp) as (t0 & Hin & Hc).
    now exists t0, inv_amount. }
  split; [exact Hcalls|]. split.
  - intros Hnone. destruct (service_calls l) as [|p ps]; [reflexivity|].
    destruct (Hcalls p (or_introl eq_refl)) as (t & a & Hin & _ & Hdeb & _).
    rewrite Forall_forall in Hnone. rewrite (Hnone t Hin) in Hdeb.
    discriminate.
  - intros inv_amount Ha Hgap.
    destruct (service_calls l) as [|p ps]; [reflexivity|].
    destruct (Hcalls p (or_introl eq_refl))
      as (t & a & Hin & Ha' & Hdeb & x & v & n & Hx & _ & _ & _ & _ & _ & Hle & _).
    assert (a = inv_amount) by congruence. subst a.
    rewrite Forall_forall in Hgap.
    specialize (Hgap t Hin Hdeb x Hx). apply ltb_not_leb in Hgap.
    congruence.
Qed.

Lemma C3_witness :
  runs occurs_scorer (fun q reply => says_no q = reply)
       (reconcile_invoice_with_ai (acme_invoice (Some (Num 1000%float)))
          [acme_row 1 (Num 800%float) "DEBIT" "Unreconciled";
           acme_row 2 (Num 2500%float) "Credit" "Unreconciled"])
       [Scored "acme corp" "acme corp payment";
        Scored "inv-1042" "acme corp payment"]
       (Ok no_match) /\
  service_calls [Scored "acme corp" "acme corp payment";
                 Scored "inv-1042" "acme corp payment"] = [].
Proof.
  assert (H := run_runs occurs_scorer says_no
    (reconcile_invoice_with_ai (acme_invoice (Some (Num 1000%float)))
       [acme_row 1 (Num 800%float) "DEBIT" "Unreconciled";
        acme_row 2 (Num 2500%float) "Credit" "Unreconciled"])).
  split; [exact H|].
  refine (proj2 (proj2 (C3_service_called_only_for_fee_candidates _ _ _ _ _ _ H))
            1000%float eq_refl _).
  repeat constructor; cbn; intros; try discriminate.
  match goal with E : Ok _ = Ok _ |- _ => injection E as <- end.
  vm_compute. reflexivity.
Defined.

(** C4: an answer is accepted only when it is a response whose text,
    trimmed and uppercased, starts with YES; any other response, a
    response without text and any exception of the call are refusals.
    When the loop reaches a fee candidate [t] and the service's answer is
    a refusal, nothing is returned for [t] and nothing is raised: the run
    goes on with the rows after [t], after the handler's message when
    the call raised.  When every answer of the service is a refusal and
    no row is an exact match (the invoice amount and the debit rows'
    amounts being numbers, and the scorer returning), the function
    returns a Pending decision. *)
Theorem C4_refusal_fails_closed
    (scorer : string -> string -> result Z) (service : prompt -> gen_reply)
    (invoice_data : invoice) (inv_amount : float) :
  invoice_amount invoice_data = Ok inv_amount ->
  let inv_vendor := invoice_vendor invoice_data in
  let inv_num := invoice_num invoice_data in
  ((forall e, accepted (GenError e) = false) /\
   accepted NoText = false /\
   (forall text, accepted (Response text) =
                 PyStr.startswith (PyStr.upper (PyStr.strip text)) "YES")) /\
  (forall pre t post txn_amount score l,
     run scorer service (scan inv_vendor inv_num inv_amount pre)
       = (l, Ok no_match) ->
     is_debit t = true ->
     py_float (t_amount t) = Ok txn_amount ->
     text_score scorer inv_vendor inv_num t = Ok score ->
     exact_rule inv_amount txn_amount score = false ->
     fee_rule inv_amount txn_amount score = true ->
     let txn_desc := PyStr.lower (t_description t) in
     let q := request inv_vendor inv_num inv_amount txn_desc txn_amount in
     accepted (service q) = false ->
     run scorer service
         (reconcile_invoice_with_ai invoice_data (pre ++ t :: post)) =
     (l ++ [Scored inv_vendor txn_desc; Scored inv_num txn_desc; Generated q]
        ++ refusal_log (service q)
        ++ fst (run scorer service (scan inv_vendor inv_num inv_amount post)),
      snd (run scorer service (scan inv_vendor inv_num inv_amount post)))) /\
  (forall transactions_df,
     Forall (inexact_row scorer inv_vendor inv_num inv_amount)
            transactions_df ->
     Forall (refused_row scorer service inv_vendor inv_num inv_amount)
            transactions_df ->
     exists d,
       snd (run scorer service
                (reconcile_invoice_with_ai invoice_data transactions_df))
         = Ok d /\
       status d = Pending).
Proof.
  intros Ha inv_vendor inv_num. subst inv_vendor inv_num. split; [|split].
  - repeat split.
  - intros pre t post txn_amount score l Hpre D F S X Fee txn_desc q Hno.
    subst txn_desc q.
    rewrite (run_reconcile_reach _ _ _ _ _ _ _ _ Ha Hpre).
    rewrite (row_run_fee scorer _ _ inv_amount service t txn_amount score
               D F S X Fee).
    destruct (service _) as [text| |e] eqn:R; cbn [refusal_log];
      try rewrite Hno; unfold then_run; cbn [fst snd app];
      rewrite <- ?app_assoc; reflexivity.
  - intros transactions_df Hrows Hno.
    unfold reconcile_invoice_with_ai.
    destruct transactions_df as [|t rest]; [now exists no_transactions|].
    rewrite Ha. exists no_match. split; [|reflexivity].
    now apply run_scan_all_refused.
Qed.

Lemma C4_witness :
  exists d,
    snd (run occurs_scorer outage
           (reconcile_invoice_with_ai (acme_invoice (Some (Num 1000%float)))
              [acme_row 1 (Num 975%float) "debit" "Unreconciled";
               acme_row 2 (Num 990%float) "debit" "Unreconciled";
               acme_row 3 (Num 1000%float) "credit" "Unreconciled"]))
      = Ok d /\
    status d = Pending.
Proof.
  refine (proj2 (proj2 (C4_refusal_fails_closed occurs_scorer outage
    (acme_invoice (Some (Num 1000%float))) 1000%float eq_refl)) _ _ _).
  - repeat constructor; intros D; try discriminate D;
      eexists _, _; repeat split; reflexivity.
  - repeat constructor; intros p _; reflexivity.
Defined.

(** C5, on the code: a missing total_amount is read as 0.0, but a
    total_amount that is present and is no number is not coerced.  With
    at least one transaction row, [float()] raises before the loop
    starts, ValueError for a str such as "N/A" and TypeError for None:
    no call is made and no decision is returned. *)
Theorem C5_total_amount_not_coerced
    (scorer : string -> string -> result Z) (service : prompt -> gen_reply)
    (vendor number due : option string) (s : string)
    (t : txn) (rest : list txn) :
  invoice_amount {| vendor_name := vendor; invoice_number := number;
                    total_amount := None; due_date := due |} = Ok 0%float /\
  run scorer service
      (reconcile_invoice_with_ai
         {| vendor_name := vendor; invoice_number := number;
            total_amount := Some (NotNum s); due_date := due |}
         (t :: rest)) = ([], Raised (ValueError s)) /\
  run scorer service
      (reconcile_invoice_with_ai
         {| vendor_name := vendor; invoice_number := number;
            total_amount := Some Null; due_date := due |}
         (t :: rest)) = ([], Raised TypeError).
Proof. repeat split. Qed.

(** C6, as stated, fails: a debit row whose amount is the str "N/A" ends
    the call with ValueError, although the row after it is an exact
    match; and a scorer that raises on a row ends the call with its
    exception. *)
Lemma C6_counterexample :
  let inv := acme_invoice (Some (Num 1000%float)) in
  let bad := acme_row 1 (NotNum "N/A") "debit" "Unreconciled" in
  let good := acme_row 2 (Num 1000%float) "debit" "Unreconciled" in
  run occurs_scorer says_yes (reconcile_invoice_with_ai inv [bad; good]) =
    ([], Raised (ValueError "N/A")) /\
  run occurs_scorer says_yes (reconcile_invoice_with_ai inv [good]) =
    ([Scored "acme corp" "acme corp payment";
      Scored "inv-1042" "acme corp payment"], Ok (exact_match good)) /\
  run raising_scorer says_yes (reconcile_invoice_with_ai inv [good]) =
    ([Scored "acme corp" "acme corp payment"],
     Raised (ScorerError "scorer failed")).
Proof. vm_compute. repeat split. Qed.

(** C6, amended: the loop has no handler of its own for a row.  A row
    that is not a debit is passed over before its amount is converted, so
    whatever it holds, the run goes on with the rows after it.  When the
    loop reaches a debit row (the rows before it run to the end of the
    loop) whose amount [float()] does not convert, or on which the scorer
    raises, that exception leaves the function: no decision is returned
    and the rows after it are not evaluated, the calls made being those
    for the rows before it and, for a scorer exception, the scorer calls
    on this row up to the one that raised. *)
Theorem C6_row_errors_propagate
    (scorer : string -> string -> result Z) (service : prompt -> gen_reply)
    (invoice_data : invoice) (pre post : list txn) (t : txn)
    (inv_amount : float) (l : list event) :
  invoice_amount invoice_data = Ok inv_amount ->
  run scorer service
      (scan (invoice_vendor invoice_data) (invoice_num invoice_data)
            inv_amount pre) = (l, Ok no_match) ->
  (is_debit t = false ->
     run scorer service
         (reconcile_invoice_with_ai invoice_data (pre ++ t :: post)) =
     (l ++ fst (run scorer service
                  (scan (invoice_vendor invoice_data)
                     (invoice_num invoice_data) inv_amount post)),
      snd (run scorer service
             (scan (invoice_vendor invoice_data)
                (invoice_num invoice_data) inv_amount post)))) /\
  (is_debit t = true ->
     forall e, py_float (t_amount t) = Raised e ->
     run scorer service
         (reconcile_invoice_with_ai invoice_data (pre ++ t :: post)) =
     (l, Raised e)) /\
  (is_debit t = true ->
     forall txn_amount e,
     py_float (t_amount t) = Ok txn_amount ->
     scorer (invoice_vendor invoice_data) (PyStr.lower (t_description t))
       = Raised e ->
     run scorer service
         (reconcile_invoice_with_ai invoice_data (pre ++ t :: post)) =
     (l ++ [Scored (invoice_vendor invoice_data)
                   (PyStr.lower (t_description t))],
      Raised e)) /\
  (is_debit t = true ->
     forall txn_amount vendor_match e,
     py_float (t_amount t) = Ok txn_amount ->
     scorer (invoice_vendor invoice_data) (PyStr.lower (t_description t))
       = Ok vendor_match ->
     scorer (invoice_num invoice_data) (PyStr.lower (t_description t))
       = Raised e ->
     run scorer service
         (reconcile_invoice_with_ai invoice_data (pre ++ t :: post)) =
     (l ++ [Scored (invoice_vendor invoice_data)
                   (PyStr.lower (t_description t));
            Scored (invoice_num invoice_data)
                   (PyStr.lower (t_description t))],
      Raised e)).
Proof.
  intros Ha Hpre.
  rewrite (run_reconcile_reach _ _ _ _ _ _ _ _ Ha Hpre).
  unfold then_run, row_run. repeat split.
  - intros ->. cbn [negb fst snd]. now rewrite app_nil_r.
  - intros -> e ->. cbn [negb fst snd]. now rewrite app_nil_r.
  - intros -> txn_amount e -> ->. reflexivity.
  - intros -> txn_amount vendor_match e -> -> ->. reflexivity.
Qed.

Lemma C6_witness :
  let inv := acme_invoice (Some (Num 1000%float)) in
  let credit := acme_row 1 (NotNum "N/A") "Credit" "Unreconciled" in
  let bad := acme_row 2 (NotNum "1,000.00") "Debit" "Unreconciled" in
  let good := acme_row 3 (Num 1000%float) "Debit" "Unreconciled" in
  run occurs_scorer says_yes (reconcile_invoice_with_ai inv [credit; bad; good])
  = ([], Raised (ValueError "1,000.00")).
Proof.
  cbv zeta.
  refine (proj1 (proj2 (C6_row_errors_propagate occurs_scorer says_yes
    (acme_invoice (Some (Num 1000%float)))
    [acme_row 1 (NotNum "N/A") "Credit" "Unreconciled"]
    [acme_row 3 (Num 1000%float) "Debit" "Unreconciled"]
    (acme_row 2 (NotNum "1,000.00") "Debit" "Unreconciled")
    1000%float [] eq_refl eq_refl)) eq_refl _ eq_refl).
Defined.

(** C7: in every run that returns a decision, the decision has a
    transaction_id exactly when its status is Exact Match or AI Reconciled;
    a Pending decision has no transaction_id, no confidence and no
    matched_data, and its reason is one of the two sentences the function
    writes. *)
Theorem C7_transaction_id_iff_matched
    (scorer : string -> string -> result Z)
    (service : prompt -> gen_reply -> Prop)
    (invoice_data : invoice) (transactions_df : list txn)
    (l : list event) (d : decision) :
  runs scorer service
       (reconcile_invoice_with_ai invoice_data transactions_df) l (Ok d) ->
  (transaction_id d <> None <->
     status d = ExactMatch \/ status d = AIReconciled) /\
  (status d = ExactMatch \/ status d = AIReconciled \/ status d = Pending) /\
  (status d = Pending ->
     transaction_id d = None /\ confidence d = None /\
     matched_data d = None /\
     (reason d = "No bank transactions available to match." \/
      reason d = "No matching payment found in bank transactions.")).
Proof.
  intros H.
  assert (Hd : d = no_transactions \/ d = no_match \/
               exists t, d = exact_match t \/ exists text, d = ai_reconciled t text).
  { unfold reconcile_invoice_with_ai in H.
    destruct transactions_df as [|t rest]; [inv_runs; now left|].
    destruct (invoice_amount invoice_data) as [inv_amount|e]; [|inv_runs].
    apply runs_scan_inv in H. destruct H as [_ H].
    destruct (H d eq_refl) as [->|(t0 & _ & _ & Hm)]; [right; now left|].
    right. right. now exists t0. }
  destruct Hd as [->|[->|(t & [->|(text & ->)])]]; cbn.
  - split; [|split]; [split; [congruence|intros [|]; discriminate]|tauto|].
    intros _. repeat split. now left.
  - split; [|split]; [split; [congruence|intros [|]; discriminate]|tauto|].
    intros _. repeat split. now right.
  - split; [|split]; [split; [now left|discriminate]|tauto|discriminate].
  - split; [|split]; [split; [now right|discriminate]|tauto|discriminate].
Qed.

Lemma C7_witness :
  runs occurs_scorer (fun q reply => says_yes q = reply)
       (reconcile_invoice_with_ai (acme_invoice (Some (Num 1000%float)))
          [acme_row 7 (Num 975%float) "Debit" "Unreconciled"])
       (fst (run occurs_scorer says_yes
          (reconcile_invoice_with_ai (acme_invoice (Some (Num 1000%float)))
             [acme_row 7 (Num 975%float) "Debit" "Unreconciled"])))
       (Ok (ai_reconciled (acme_row 7 (Num 975%float) "Debit" "Unreconciled")
                          "YES, likely a processing fee.")) /\
  (Some 7 <> None <->
     AIReconciled = ExactMatch \/ AIReconciled = AIReconciled).
Proof.
  assert (H := run_runs occurs_scorer says_yes
    (reconcile_invoice_with_ai (acme_invoice (Some (Num 1000%float)))
       [acme_row 7 (Num 975%float) "Debit" "Unreconciled"])).
  split; [exact H|].
  exact (proj1 (C7_transaction_id_iff_matched _ _ _ _ _ _ H)).
Defined.

(** C8: with an empty transaction sequence the function returns at once a
    Pending decision whose reason says that no bank transactions are
    available; the program is that single return, so it calls neither the
    scorer nor the judgment service and raises nothing, whatever the
    invoice holds. *)
Theorem C8_empty_transactions (invoice_data : invoice) :
  reconcile_invoice_with_ai invoice_data [] = Ret no_transactions /\
  status no_transactions = Pending /\
  reason no_transactions = "No bank transactions available to match." /\
  forall scorer service,
    run scorer service (reconcile_invoice_with_ai invoice_data []) =
    ([], Ok no_transactions).
Proof. repeat split. Qed.

(** C9: two calls with the same invoice and the same transaction
    sequence, against the same scorer and a judgment service that gives
    one answer to each request the matcher can send for these inputs
    (the requests of the fee candidates among the rows; elsewhere the
    service may answer in any way), make the same calls and end with the
    same decision, or the same exception.  A deterministic stub, which
    gives one answer to every request, is such a service. *)
Theorem C9_deterministic
    (scorer : string -> string -> result Z)
    (service : prompt -> gen_reply -> Prop)
    (invoice_data : invoice) (transactions_df : list txn)
    (l1 l2 : list event) (r1 r2 : result decision) :
  (forall t inv_amount q a b,
     In t transactions_df ->
     invoice_amount invoice_data = Ok inv_amount ->
     fee_candidate scorer (invoice_vendor invoice_data)
       (invoice_num invoice_data) inv_amount t q ->
     service q a -> service q b -> a = b) ->
  runs scorer service
       (reconcile_invoice_with_ai invoice_data transactions_df) l1 r1 ->
  runs scorer service
       (reconcile_invoice_with_ai invoice_data transactions_df) l2 r2 ->
  l1 = l2 /\ r1 = r2.
Proof.
  intros Hone H1 H2.
  apply runs_reconcile_cases in H1. apply runs_reconcile_cases in H2.
  destruct H1 as [(E1 & -> & ->)|[(N1 & e1 & He1 & -> & ->)
                                 |(N1 & a1 & Ha1 & S1)]];
    destruct H2 as [(E2 & -> & ->)|[(N2 & e2 & He2 & -> & ->)
                                   |(N2 & a2 & Ha2 & S2)]];
    try contradiction; try congruence; try (split; congruence).
  assert (a2 = a1) by congruence. subst a2.
  eapply scan_end_unique; [exact S1| |exact S2].
  apply Forall_forall. intros t Hin q a b Hc Ha Hb.
  exact (Hone t a1 q a b Hin Ha1 Hc Ha Hb).
Qed.

Lemma C9_witness :
  let inv := acme_invoice (Some (Num 1000%float)) in
  let row := acme_row 1 (Num 975%float) "debit" "Unreconciled" in
  let l := [Scored "acme corp" "acme corp payment";
            Scored "inv-1042" "acme corp payment";
            Generated (request "acme corp" "inv-1042" 1000
                               "acme corp payment" 975)] in
  runs occurs_scorer (answers_only_about 975)
       (reconcile_invoice_with_ai inv [row]) l (Ok no_match) /\
  (l = l /\ Ok no_match = Ok no_match).
Proof.
  cbv zeta.
  assert (H : runs occurs_scorer (answers_only_about 975)
                (reconcile_invoice_with_ai
                   (acme_invoice (Some (Num 1000%float)))
                   [acme_row 1 (Num 975%float) "debit" "Unreconciled"])
                [Scored "acme corp" "acme corp payment";
                 Scored "inv-1042" "acme corp payment";
                 Generated (request "acme corp" "inv-1042" 1000
                                    "acme corp payment" 975)]
                (Ok no_match)).
  { eapply runs_Score; [reflexivity|].
    eapply runs_Score; [reflexivity|].
    eapply (runs_Generate _ _ _ _ (Response "NO, the amounts are unrelated."));
      [intros _; reflexivity|].
    apply runs_Ret. }
  split; [exact H|].
  refine (C9_deterministic _ _ _ _ _ _ _ _ _ H H).
  intros t inv_amount q a b [<-|[]] _ (_ & x & v & n & F & _ & _ & _ & _ & _ & _ & ->)
         Ha Hb.
  injection F as <-.
  rewrite (Ha eq_refl), (Hb eq_refl). reflexivity.
Defined.

(** C10: the function never reads a row's status.  On two sequences whose
    rows differ at most in their status, it makes the same calls and
    ends the same way: the same exception, or decisions with the same
    status, transaction_id, confidence and reason whose snapshots differ
    at most in the row's status.  A row marked Reconciled is matched like
    one marked Unreconciled. *)
Theorem C10_status_is_ignored
    (scorer : string -> string -> result Z) (service : prompt -> gen_reply)
    (invoice_data : invoice) (df1 df2 : list txn) :
  Forall2 same_but_status df1 df2 ->
  fst (run scorer service (reconcile_invoice_with_ai invoice_data df1)) =
  fst (run scorer service (reconcile_invoice_with_ai invoice_data df2)) /\
  same_result_but_status
    (snd (run scorer service (reconcile_invoice_with_ai invoice_data df1)))
    (snd (run scorer service (reconcile_invoice_with_ai invoice_data df2))).
Proof.
  intros H. unfold reconcile_invoice_with_ai.
  destruct H as [|t1 t2 rest1 rest2 Ht Hrest].
  - split; [reflexivity|]. cbn. repeat split.
  - destruct (invoice_amount invoice_data) as [inv_amount|e].
    + apply run_scan_same_but_status. now constructor.
    + now split.
Qed.

Lemma C10_witness :
  let inv := acme_invoice (Some (Num 1000%float)) in
  let fresh := acme_row 3 (Num 1000%float) "Debit" "Unreconciled" in
  let used := acme_row 3 (Num 1000%float) "Debit" "Reconciled" in
  Forall2 same_but_status [fresh] [used] /\
  snd (run occurs_scorer says_no (reconcile_invoice_with_ai inv [used])) =
    Ok (exact_match used) /\
  same_result_but_status
    (snd (run occurs_scorer says_no (reconcile_invoice_with_ai inv [fresh])))
    (snd (run occurs_scorer says_no (reconcile_invoice_with_ai inv [used]))).
Proof.
  cbv zeta.
  assert (H : Forall2 same_but_status
                [acme_row 3 (Num 1000%float) "Debit" "Unreconciled"]
                [acme_row 3 (Num 1000%float) "Debit" "Reconciled"])
    by (repeat constructor).
  split; [exact H|]. split; [reflexivity|].
  exact (proj2 (C10_status_is_ignored occurs_scorer says_no
                  (acme_invoice (Some (Num 1000%float))) _ _ H)).
Defined.

(** * Further properties of the matcher *)

Section FeeBound.

Local Open Scope float_scope.

Lemma binary_round_aux_sign sx mx ex lx :
  match binary_round_aux prec emax sx mx ex lx with
  | S754_zero s => s = sx
  | S754_infinity s => s = sx
  | S754_finite s _ _ => s = sx
  | S754_nan => True
  end.
Proof.
  unfold binary_round_aux.
  destruct (shr_fexp prec emax mx ex lx) as [mrs' e'].
  destruct (shr_fexp prec emax _ e' loc_Exact) as [mrs'' e''].
  destruct (shr_m mrs''); auto.
  destruct (Z.leb _ _); auto.
Qed.

Lemma SFmul_by_positive_sign sx mx ex my ey :
  match SFmul prec emax (S754_finite sx mx ex) (S754_finite false my ey) with
  | S754_zero s => s = sx
  | S754_infinity s => s = sx
  | S754_finite s _ _ => s = sx
  | S754_nan => True
  end.
Proof.
  cbn [SFmul]. rewrite xorb_false_r. apply binary_round_aux_sign.
Qed.

Lemma Prim2SF_rate : exists m e, Prim2SF 0.05 = S754_finite false m e.
Proof. eexists _, _. vm_compute. reflexivity. Qed.

(** When the invoice amount [a] is not above 0 (zero, negative or NaN),
    no gap [d] above 0 is at most [a * 0.05]. *)
Lemma no_fee_range_without_positive_amount (a d : float) :
  (0 <? a) = false -> (0 <? d) = true -> (d <=? a * 0.05) = false.
Proof.
  rewrite !ltb_spec, leb_spec, mul_spec.
  change (Prim2SF 0) with (S754_zero false).
  destruct Prim2SF_rate as (m & e & ->).
  unfold SF64mul, SFltb, SFleb.
  destruct (Prim2SF a) as [sa|sa| |sa ma ea], (Prim2SF d) as [sd|sd| |sd md ed];
    try (destruct sa); try (destruct sd); try discriminate; try reflexivity.
  all: intros _ _;
    pose proof (SFmul_by_positive_sign true ma ea m e) as Hs;
    destruct (SFmul prec emax (S754_finite true ma ea) (S754_finite false m e))
      as [s|s| |s m' e']; try subst s; reflexivity.
Qed.

Lemma fee_rule_needs_positive_amount (inv_amount txn_amount : float) (score : Z) :
  (0 <? inv_amount) = false ->
  fee_rule inv_amount txn_amount score = false.
Proof.
  intros Ha. unfold fee_rule, is_within_fee_range.
  destruct (0 <? abs (inv_amount - txn_amount)) eqn:G.
  - rewrite (no_fee_range_without_positive_amount _ _ Ha G).
    now rewrite !andb_false_r.
  - now rewrite andb_false_r.
Qed.

End FeeBound.

Lemma scorer_calls_app (l1 l2 : list event) :
  scorer_calls (l1 ++ l2) = scorer_calls l1 ++ scorer_calls l2.
Proof.
  induction l1 as [|[a b|p|msg] l1 IH]; cbn [app scorer_calls];
    now rewrite ?IH.
Qed.

Section ScanEndFacts.

Variable scorer : string -> string -> result Z.
Variable service : prompt -> gen_reply -> Prop.
Variables (inv_vendor inv_num : string) (inv_amount : float).

Let row_ends := row_end scorer service inv_vendor inv_num inv_amount.
Let loop_ends := scan_end scorer service inv_vendor inv_num inv_amount.

(** A decision the loop returns is the final Pending, or was returned on
    one of the rows, whose calls end the log. *)
Lemma scan_end_returned (rows : list txn) l d :
  loop_ends rows l (Ok d) ->
  d = no_match \/
  exists t l1 l0, In t rows /\ l = l1 ++ l0 /\ row_ends t l0 (Some (Ok d)).
Proof.
  intros H. remember (Ok d) as r eqn:Er.
  induction H as [|t rest l r Hrow|t rest l0 l r Hrow Hrest IH]; subst.
  - injection Er as <-. now left.
  - right. exists t, [], l. split; [now left|]. now split.
  - destruct (IH eq_refl) as [->|(t0 & l1 & l2 & Hin & -> & Hrow0)]; [now left|].
    right. exists t0, (l0 ++ l1), l2. split; [now right|].
    split; [now rewrite app_assoc|assumption].
Qed.

Lemma refusal_log_calls (reply : gen_reply) :
  service_calls (refusal_log reply) = [] /\
  scorer_calls (refusal_log reply) = [].
Proof. now destruct reply. Qed.

(** One row costs at most two scorer calls and one request, and nothing
    when it is no debit. *)
Lemma row_end_calls (t : txn) l o :
  row_ends t l o ->
  (List.length (scorer_calls l) <= (if is_debit t then 2 else 0))%nat /\
  (List.length (service_calls l) <= (if is_debit t then 1 else 0))%nat.
Proof.
  intros H.
  destruct H as [D|e D|? e D|? ? e D|? ? D|? ? D|? ? text D|? ? reply D];
    rewrite D; cbn [scorer_calls service_calls List.length];
    try (split; lia).
  destruct (refusal_log_calls reply) as [-> ->]. cbn. split; lia.
Qed.

Lemma scan_end_calls (rows : list txn) l r :
  loop_ends rows l r ->
  (List.length (scorer_calls l) <= 2 * List.length (filter is_debit rows))%nat /\
  (List.length (service_calls l) <= List.length (filter is_debit rows))%nat.
Proof.
  intros H.
  induction H as [|t rest l r Hrow|t rest l0 l r Hrow Hrest [IH1 IH2]].
  - cbn. split; lia.
  - apply row_end_calls in Hrow. cbn [filter].
    destruct (is_debit t); cbn [List.length]; lia.
  - apply row_end_calls in Hrow.
    rewrite scorer_calls_app, service_calls_app, !length_app. cbn [filter].
    destruct (is_debit t); cbn [List.length]; lia.
Qed.

(** No exception leaves the loop when the amounts of the debit rows are
    numbers and the scorer returns. *)
Lemma scan_end_no_exception (rows : list txn) l r :
  (forall a b, exists n, scorer a b = Ok n) ->
  Forall (fun t => is_debit t = true ->
                   exists txn_amount, py_float (t_amount t) = Ok txn_amount)
         rows ->
  loop_ends rows l r ->
  exists d, r = Ok d.
Proof.
  intros Hsc Hrows H.
  induction H as [|t rest l r Hrow|t rest l0 l r Hrow Hrest IH].
  - now exists no_match.
  - inversion Hrows as [|t' rest' Ht _]; subst.
    inversion Hrow as [D|e D F|a e D F S|a v e D F Sv Sn|a s D F S X|
                       |a s text D F S X Fee Hq Acc|]; subst; eauto.
    + destruct (Ht D) as (x & Hx). congruence.
    + destruct (Hsc inv_vendor (PyStr.lower (t_description t))) as (n & Hn).
      congruence.
    + destruct (Hsc inv_num (PyStr.lower (t_description t))) as (n & Hn).
      congruence.
  - inversion Hrows; subst. now apply IH.
Qed.

(** With an invoice amount that is not above 0, the loop sends no
    request. *)
Lemma scan_end_no_request (rows : list txn) l r :
  (0 <? inv_amount)%float = false ->
  loop_ends rows l r ->
  service_calls l = [] /\
  forall d, r = Ok d -> status d <> AIReconciled.
Proof.
  intros Ha H.
  assert (Hfee := fun x s => fee_rule_needs_positive_amount inv_amount x s Ha).
  assert (Hrow : forall t l0 o, row_ends t l0 o ->
            service_calls l0 = [] /\
            forall d, o = Some (Ok d) -> status d <> AIReconciled).
  { intros t l0 o Hr.
    destruct Hr as [D|e D|? e D|? ? e D|x s D F S X|? ? D|x s text D F S X Fee
                   |x s reply D F S X Fee];
      try (rewrite Hfee in Fee; discriminate Fee);
      (split; [reflexivity|intros d [= <-] || intros d [=]]).
    discriminate. }
  induction H as [|t rest l r Hr|t rest l0 l r Hr Hrest [IH1 IH2]].
  - split; [reflexivity|]. intros d [= <-]. discriminate.
  - destruct (Hrow _ _ _ Hr) as [H1 H2]. split; [assumption|].
    intros d ->. now apply H2.
  - destruct (Hrow _ _ _ Hr) as [H1 _].
    rewrite service_calls_app, H1, IH1. now split.
Qed.

End ScanEndFacts.

(** X1: a decision with status Exact Match is only ever returned for a
    debit row of the sequence whose amount converts to a float equal to
    the invoice amount and whose text score is above 50; the decision
    carries that row's id and that row as snapshot.  This holds in every
    run, whatever the judgment service answers. *)
Theorem X1_exact_match_is_sound
    (scorer : string -> string -> result Z)
    (service : prompt -> gen_reply -> Prop)
    (invoice_data : invoice) (transactions_df : list txn)
    (l : list event) (d : decision) :
  runs scorer service
       (reconcile_invoice_with_ai invoice_data transactions_df) l (Ok d) ->
  status d = ExactMatch ->
  exists t inv_amount txn_amount score,
    In t transactions_df /\ is_debit t = true /\
    transaction_id d = Some (t_id t) /\ matched_data d = Some t /\
    invoice_amount invoice_data = Ok inv_amount /\
    py_float (t_amount t) = Ok txn_amount /\
    (inv_amount =? txn_amount)%float = true /\
    text_score scorer (invoice_vendor invoice_data)
      (invoice_num invoice_data) t = Ok score /\
    50 < score.
Proof.
  intros H Hst. apply runs_reconcile_cases in H.
  destruct H as [(_ & _ & [= ->])|[(_ & e & _ & _ & [=])|(_ & a & Ha & H)]];
    [discriminate Hst|].
  apply scan_end_returned in H.
  destruct H as [->|(t & l1 & l0 & Hin & _ & Hrow)]; [discriminate Hst|].
  inversion Hrow as [| | | |x s D F S X| |x s text D F S X Fee Hq Acc|]; subst.
  - unfold exact_rule in X. apply andb_true_iff in X. destruct X as [E Hs].
    apply Z.ltb_lt in Hs. exists t, a, x, s. repeat split; assumption.
  - discriminate Hst.
Qed.

Lemma X1_witness :
  let inv := acme_invoice (Some (Num 150%float)) in
  let rows := [acme_row 1 (Num 150%float) "Credit" "Unreconciled";
               acme_row 2 (Num 150%float) "Debit" "Unreconciled"] in
  exists t inv_amount txn_amount score,
    In t rows /\ is_debit t = true /\
    transaction_id (exact_match (acme_row 2 (Num 150%float) "Debit"
                                   "Unreconciled")) = Some (t_id t) /\
    matched_data (exact_match (acme_row 2 (Num 150%float) "Debit"
                                 "Unreconciled")) = Some t /\
    invoice_amount inv = Ok inv_amount /\
    py_float (t_amount t) = Ok txn_amount /\
    (inv_amount =? txn_amount)%float = true /\
    text_score occurs_scorer (invoice_vendor inv) (invoice_num inv) t
      = Ok score /\
    50 < score.
Proof.
  cbv zeta.
  refine (X1_exact_match_is_sound occurs_scorer
    (fun q reply => says_no q = reply)
    (acme_invoice (Some (Num 150%float)))
    [acme_row 1 (Num 150%float) "Credit" "Unreconciled";
     acme_row 2 (Num 150%float) "Debit" "Unreconciled"] _ _
    (run_runs occurs_scorer says_no
       (reconcile_invoice_with_ai (acme_invoice (Some (Num 150%float)))
          [acme_row 1 (Num 150%float) "Credit" "Unreconciled";
           acme_row 2 (Num 150%float) "Debit" "Unreconciled"])) eq_refl).
Defined.

(** X2: a decision with status AI Reconciled is only ever returned for a
    debit row of the sequence on which the exact-match rule did not fire,
    whose text score is above 60 and whose gap is above 0 and at most
    [inv_amount * 0.05], and only after the judgment service was asked
    about that row and gave a response whose text, trimmed and
    uppercased, starts with YES; the decision's reason is that text,
    trimmed. *)
Theorem X2_ai_reconciled_is_sound
    (scorer : string -> string -> result Z)
    (service : prompt -> gen_reply -> Prop)
    (invoice_data : invoice) (transactions_df : list txn)
    (l : list event) (d : decision) :
  runs scorer service
       (reconcile_invoice_with_ai invoice_data transactions_df) l (Ok d) ->
  status d = AIReconciled ->
  exists t inv_amount q text,
    In t transactions_df /\
    invoice_amount invoice_data = Ok inv_amount /\
    fee_candidate scorer (invoice_vendor invoice_data)
      (invoice_num invoice_data) inv_amount t q /\
    In q (service_calls l) /\
    service q (Response text) /\
    PyStr.startswith (PyStr.upper (PyStr.strip text)) "YES" = true /\
    d = ai_reconciled t text.
Proof.
  intros H Hst. apply runs_reconcile_cases in H.
  destruct H as [(_ & _ & [= ->])|[(_ & e & _ & _ & [=])|(_ & a & Ha & H)]];
    [discriminate Hst|].
  apply scan_end_returned in H.
  destruct H as [->|(t & l1 & l0 & Hin & -> & Hrow)]; [discriminate Hst|].
  inversion Hrow as [| | | |x s D F S X| |x s text D F S X Fee Hq Acc|]; subst;
    [discriminate Hst|].
  apply text_score_Ok in S. destruct S as (v & n & Hv & Hn & ->).
  destruct (fee_rule_true _ _ _ Fee) as (Hs & Hgap & Hle).
  exists t, a, (request (invoice_vendor invoice_data) (invoice_num invoice_data)
                  a (PyStr.lower (t_description t)) x), text.
  repeat split; try assumption.
  - exists x, v, n. cbn zeta. tauto.
  - rewrite service_calls_app. apply in_or_app. right. cbn. now left.
Qed.

Lemma X2_witness :
  let inv := acme_invoice (Some (Num 1000%float)) in
  let row := acme_row 9 (Num 975%float) "DEBIT" "Unreconciled" in
  exists t inv_amount q text,
    In t [row] /\
    invoice_amount inv = Ok inv_amount /\
    fee_candidate occurs_scorer (invoice_vendor inv) (invoice_num inv)
      inv_amount t q /\
    In q (service_calls
            (fst (run occurs_scorer says_yes
                    (reconcile_invoice_with_ai inv [row])))) /\
    says_yes q = Response text /\
    PyStr.startswith (PyStr.upper (PyStr.strip text)) "YES" = true /\
    ai_reconciled row "YES, likely a processing fee." = ai_reconciled t text.
Proof.
  cbv zeta.
  refine (X2_ai_reconciled_is_sound occurs_scorer
    (fun q reply => says_yes q = reply)
    (acme_invoice (Some (Num 1000%float)))
    [acme_row 9 (Num 975%float) "DEBIT" "Unreconciled"] _ _
    (run_runs occurs_scorer says_yes
       (reconcile_invoice_with_ai (acme_invoice (Some (Num 1000%float)))
          [acme_row 9 (Num 975%float) "DEBIT" "Unreconciled"])) eq_refl).
Defined.

(** X3: in every run the scorer is called at most twice per debit row and
    the judgment service at most once per debit row of the sequence;
    rows that are no debit cost no call. *)
Theorem X3_calls_are_bounded_by_debit_rows
    (scorer : string -> string -> result Z)
    (service : prompt -> gen_reply -> Prop)
    (invoice_data : invoice) (transactions_df : list txn)
    (l : list event) (r : result decision) :
  runs scorer service
       (reconcile_invoice_with_ai invoice_data transactions_df) l r ->
  (List.length (scorer_calls l)
     <= 2 * List.length (filter is_debit transactions_df))%nat /\
  (List.length (service_calls l)
     <= List.length (filter is_debit transactions_df))%nat.
Proof.
  intros H. apply runs_reconcile_cases in H.
  destruct H as [(_ & -> & _)|[(_ & e & _ & -> & _)|(_ & a & _ & H)]];
    try (cbn; split; lia).
  now apply scan_end_calls in H.
Qed.

Lemma X3_witness :
  let l := fst (run occurs_scorer outage
                  (reconcile_invoice_with_ai
                     (acme_invoice (Some (Num 1000%float)))
                     [acme_row 1 (Num 990%float) "debit" "Unreconciled";
                      acme_row 2 (Num 990%float) "credit" "Unreconciled";
                      acme_row 3 (Num 400%float) "debit" "Unreconciled"])) in
  (List.length (scorer_calls l) <= 2 * 2)%nat /\
  (List.length (service_calls l) <= 2)%nat.
Proof.
  cbv zeta.
  exact (X3_calls_are_bounded_by_debit_rows occurs_scorer
    (fun q reply => outage q = reply)
    (acme_invoice (Some (Num 1000%float)))
    [acme_row 1 (Num 990%float) "debit" "Unreconciled";
     acme_row 2 (Num 990%float) "credit" "Unreconciled";
     acme_row 3 (Num 400%float) "debit" "Unreconciled"] _ _
    (run_runs occurs_scorer outage _)).
Defined.

(** X4: when the invoice amount is missing or a number, the amount of
    every debit row is a number and the scorer returns on every pair of
    strings, every run ends with a decision: whatever the judgment
    service does, answers or exceptions, no exception leaves the
    function. *)
Theorem X4_no_exception_on_numeric_input
    (scorer : string -> string -> result Z)
    (service : prompt -> gen_reply -> Prop)
    (invoice_data : invoice) (transactions_df : list txn)
    (inv_amount : float) (l : list event) (r : result decision) :
  invoice_amount invoice_data = Ok inv_amount ->
  (forall a b, exists n, scorer a b = Ok n) ->
  Forall (fun t => is_debit t = true ->
                   exists txn_amount, py_float (t_amount t) = Ok txn_amount)
         transactions_df ->
  runs scorer service
       (reconcile_invoice_with_ai invoice_data transactions_df) l r ->
  exists d, r = Ok d.
Proof.
  intros Ha Hsc Hrows H. apply runs_reconcile_cases in H.
  destruct H as [(_ & _ & ->)|[(_ & e & He & _)|(_ & a & _ & H)]].
  - now exists no_transactions.
  - congruence.
  - eapply scan_end_no_exception; eassumption.
Qed.

Lemma X4_witness :
  exists d,
    snd (run occurs_scorer outage
           (reconcile_invoice_with_ai (acme_invoice None)
              [acme_row 1 (Num 990%float) "debit" "Unreconciled";
               acme_row 2 (NotNum "N/A") "credit" "Unreconciled"]))
    = Ok d.
Proof.
  refine (X4_no_exception_on_numeric_input occurs_scorer
    (fun q reply => outage q = reply) (acme_invoice None)
    [acme_row 1 (Num 990%float) "debit" "Unreconciled";
     acme_row 2 (NotNum "N/A") "credit" "Unreconciled"]
    0%float _ _ eq_refl _ _ (run_runs occurs_scorer outage _)).
  - intros a b. unfold occurs_scorer. destruct (index 0 a b); eauto.
  - repeat constructor; intros D; try discriminate D. now exists 990%float.
Defined.

(** X5: when the invoice amount is not above 0 (zero, as in the
    extraction fallback and for a missing total_amount, negative, or
    NaN), no gap is within the fee tolerance: in every run the judgment
    service is never asked and no decision has the status AI
    Reconciled. *)
Theorem X5_no_request_without_positive_amount
    (scorer : string -> string -> result Z)
    (service : prompt -> gen_reply -> Prop)
    (invoice_data : invoice) (transactions_df : list txn)
    (inv_amount : float) (l : list event) (r : result decision) :
  invoice_amount invoice_data = Ok inv_amount ->
  (0 <? inv_amount)%float = false ->
  runs scorer service
       (reconcile_invoice_with_ai invoice_data transactions_df) l r ->
  service_calls l = [] /\
  forall d, r = Ok d -> status d <> AIReconciled.
Proof.
  intros Ha Hpos H. apply runs_reconcile_cases in H.
  destruct H as [(_ & -> & ->)|[(_ & e & _ & -> & ->)|(_ & a & Ha' & H)]].
  - split; [reflexivity|]. intros d [= <-]. discriminate.
  - split; [reflexivity|]. discriminate.
  - assert (a = inv_amount) by congruence. subst a.
    eapply scan_end_no_request; eassumption.
Qed.

Lemma X5_witness :
  service_calls
    (fst (run occurs_scorer says_yes
            (reconcile_invoice_with_ai (acme_invoice (Some (Num (-1000)%float)))
               [acme_row 1 (Num (-1000.5)%float) "debit" "Unreconciled";
                acme_row 2 (Num (-990)%float) "debit" "Unreconciled"])))
  = [].
Proof.
  refine (proj1 (X5_no_request_without_positive_amount occurs_scorer
    (fun q reply => says_yes q = reply)
    (acme_invoice (Some (Num (-1000)%float)))
    [acme_row 1 (Num (-1000.5)%float) "debit" "Unreconciled";
     acme_row 2 (Num (-990)%float) "debit" "Unreconciled"]
    (-1000)%float _ _ eq_refl eq_refl (run_runs occurs_scorer says_yes _))).
Defined.

Lemma run_scan_filter_debit (scorer : string -> string -> result Z)
    (service : prompt -> gen_reply) (inv_vendor inv_num : string)
    (inv_amount : float) (rows : list txn) :
  run scorer service (scan inv_vendor inv_num inv_amount rows) =
  run scorer service
      (scan inv_vendor inv_num inv_amount (filter is_debit rows)).
Proof.
  induction rows as [|t rest IH]; [reflexivity|].
  cbn [filter]. destruct (is_debit t) eqn:D.
  - rewrite !run_scan_cons. now rewrite IH.
  - rewrite run_scan_cons, IH. unfold then_run, row_run. rewrite D.
    cbn [negb fst snd app].
    now destruct (run scorer service
                    (scan inv_vendor inv_num inv_amount (filter is_debit rest))).
Qed.

(** X6: rows that are no debit have no effect at all: as long as one
    debit row is left, dropping every other row from the sequence changes
    neither the calls made nor the result.  (Without any debit row the
    loop ends Pending, while an empty sequence is answered before the
    loop, with the other reason.) *)
Theorem X6_non_debit_rows_are_ignored
    (scorer : string -> string -> result Z) (service : prompt -> gen_reply)
    (invoice_data : invoice) (transactions_df : list txn) :
  filter is_debit transactions_df <> [] ->
  run scorer service (reconcile_invoice_with_ai invoice_data transactions_df) =
  run scorer service
      (reconcile_invoice_with_ai invoice_data
         (filter is_debit transactions_df)).
Proof.
  intros Hne. unfold reconcile_invoice_with_ai.
  destruct transactions_df as [|t rest]; [reflexivity|].
  destruct (filter is_debit (t :: rest)) as [|t' rest'] eqn:Ef; [contradiction|].
  destruct (invoice_amount invoice_data) as [inv_amount|e]; [|reflexivity].
  rewrite <- Ef. apply run_scan_filter_debit.
Qed.

Lemma X6_witness :
  let inv := acme_invoice (Some (Num 1000%float)) in
  let credit := acme_row 1 (NotNum "N/A") "Credit" "Unreconciled" in
  let debit := acme_row 2 (Num 990%float) "Debit" "Unreconciled" in
  filter is_debit [credit; debit; credit] <> [] /\
  run occurs_scorer says_no
      (reconcile_invoice_with_ai inv [credit; debit; credit]) =
  run occurs_scorer says_no (reconcile_invoice_with_ai inv [debit]).
Proof.
  cbv zeta.
  assert (Hne : filter is_debit
            [acme_row 1 (NotNum "N/A") "Credit" "Unreconciled";
             acme_row 2 (Num 990%float) "Debit" "Unreconciled";
             acme_row 1 (NotNum "N/A") "Credit" "Unreconciled"] <> [])
    by discriminate.
  split; [exact Hne|].
  exact (X6_non_debit_rows_are_ignored occurs_scorer says_no
           (acme_invoice (Some (Num 1000%float))) _ Hne).
Defined.

(** * The store and the caller's reconciliation step *)

Lemma update_transaction_same_but_status (transaction_id : Z) (t : txn) :
  same_but_status t (update_transaction transaction_id t).
Proof.
  unfold update_transaction. now destruct (t_id t =? transaction_id).
Qed.

Lemma update_transaction_rows (transaction_id : Z) (rows : list txn) :
  Forall2 same_but_status rows (map (update_transaction transaction_id) rows).
Proof.
  induction rows as [|t rest IH]; constructor; [|assumption].
  apply update_transaction_same_but_status.
Qed.

Lemma update_transaction_twice (transaction_id : Z) (t : txn) :
  update_transaction transaction_id (update_transaction transaction_id t) =
  update_transaction transaction_id t.
Proof.
  unfold update_transaction.
  destruct (t_id t =? transaction_id) eqn:E; cbn [t_id with_status];
    now rewrite E.
Qed.

Lemma update_invoice_twice (invoice_id : Z) (i : invoice_row) :
  update_invoice invoice_id (update_invoice invoice_id i) =
  update_invoice invoice_id i.
Proof.
  unfold update_invoice.
  destruct (i_id i =? invoice_id) eqn:E; cbn [i_id]; now rewrite E.
Qed.

(** X7: whatever happens in [mark_as_reconciled], the transactions keep
    their number, order and every column but status; a transaction with
    another id and an invoice with another id are left exactly as they
    were; a changed row has the status Reconciled; and marking the same
    pair a second time changes nothing more. *)
Theorem X7_mark_touches_only_status
    (fault : option string) (invoice_id transaction_id : Z) (s : store) :
  let s' := fst (mark_as_reconciled fault invoice_id transaction_id s) in
  Forall2 same_but_status (transactions s) (transactions s') /\
  Forall2 (fun t t' => t' = t \/
             (t_id t = transaction_id /\ t_status t' = "Reconciled"))
          (transactions s) (transactions s') /\
  Forall2 (fun i i' => i' = i \/
             (i_id i = invoice_id /\ i_id i' = i_id i /\
              i_total_amount i' = i_total_amount i /\
              i_reconciliation_status i' = "Reconciled"))
          (invoices s) (invoices s') /\
  fst (mark_as_reconciled fault invoice_id transaction_id s') = s'.
Proof.
  destruct fault as [msg|]; cbn.
  - repeat split.
    + induction (transactions s); constructor; auto. reflexivity.
    + induction (transactions s); constructor; auto.
    + induction (invoices s); constructor; auto.
  - repeat split.
    + apply update_transaction_rows.
    + induction (transactions s) as [|t rest IH]; constructor; [|assumption].
      unfold update_transaction.
      destruct (t_id t =? transaction_id) eqn:E; [right|now left].
      apply Z.eqb_eq in E. now split.
    + induction (invoices s) as [|i rest IH]; constructor; [|assumption].
      unfold update_invoice.
      destruct (i_id i =? invoice_id) eqn:E; [right|now left].
      apply Z.eqb_eq in E. now repeat split.
    + f_equal; rewrite map_map; apply map_ext; intros x.
      * apply update_transaction_twice.
      * apply update_invoice_twice.
Qed.

Lemma update_transaction_other (transaction_id : Z) (rows : list txn) :
  Forall (fun t => t_id t <> transaction_id) rows ->
  map (update_transaction transaction_id) rows = rows.
Proof.
  induction 1 as [|t rest Ht _ IH]; [reflexivity|].
  cbn [map]. rewrite IH. unfold update_transaction.
  apply Z.eqb_neq in Ht. now rewrite Ht.
Qed.

(** X8: when the ids of the transactions are pairwise different (id is
    the table's primary key), a successful [mark_as_reconciled] changes
    exactly one transaction row: the row with the given id gets the
    status Reconciled in place, every row before and after it stays as
    it was. *)
Theorem X8_mark_changes_one_row
    (invoice_id : Z) (s : store) (pre post : list txn) (t : txn) :
  NoDup (map t_id (transactions s)) ->
  transactions s = pre ++ t :: post ->
  transactions (fst (mark_as_reconciled None invoice_id (t_id t) s)) =
  pre ++ with_status "Reconciled" t :: post.
Proof.
  intros Hnd Hs. cbn. rewrite Hs in *. rewrite map_app in *. cbn [map] in *.
  apply NoDup_remove_2 in Hnd.
  assert (Hpre : Forall (fun x => t_id x <> t_id t) pre).
  { apply Forall_forall. intros x Hx Heq. apply Hnd. apply in_or_app. left.
    rewrite <- Heq. now apply in_map. }
  assert (Hpost : Forall (fun x => t_id x <> t_id t) post).
  { apply Forall_forall. intros x Hx Heq. apply Hnd. apply in_or_app. right.
    rewrite <- Heq. now apply in_map. }
  rewrite (update_transaction_other _ _ Hpre),
          (update_transaction_other _ _ Hpost).
  unfold update_transaction. now rewrite Z.eqb_refl.
Qed.

Lemma X8_witness :
  let a := acme_row 1 (Num 150%float) "Debit" "Unreconciled" in
  let b := acme_row 2 (Num 10%float) "Debit" "Unreconciled" in
  let c := acme_row 3 (Num 342.5%float) "Debit" "Reconciled" in
  transactions
    (fst (mark_as_reconciled None 7 2
            {| transactions := [a; b; c]; invoices := [] |})) =
  [a; with_status "Reconciled" b; c].
Proof.
  cbv zeta.
  refine (X8_mark_changes_one_row 7
    {| transactions := [acme_row 1 (Num 150%float) "Debit" "Unreconciled";
                        acme_row 2 (Num 10%float) "Debit" "Unreconciled";
                        acme_row 3 (Num 342.5%float) "Debit" "Reconciled"];
       invoices := [] |}
    [acme_row 1 (Num 150%float) "Debit" "Unreconciled"]
    [acme_row 3 (Num 342.5%float) "Debit" "Reconciled"]
    (acme_row 2 (Num 10%float) "Debit" "Unreconciled") _ eq_refl).
  cbn. repeat constructor; cbn; intuition discriminate.
Defined.

(** What the matcher can return, for a service answering as a function. *)
Lemma run_reconcile_returned (scorer : string -> string -> result Z)
    (service : prompt -> gen_reply) (invoice_data : invoice)
    (transactions_df : list txn) (d : decision) :
  snd (run scorer service
         (reconcile_invoice_with_ai invoice_data transactions_df)) = Ok d ->
  d = no_transactions \/ d = no_match \/
  exists t, In t transactions_df /\ is_debit t = true /\
            (d = exact_match t \/ exists text, d = ai_reconciled t text).
Proof.
  intros H.
  assert (R := run_runs scorer service
                 (reconcile_invoice_with_ai invoice_data transactions_df)).
  rewrite H in R. apply runs_reconcile_cases in R.
  destruct R as [(_ & _ & [= ->])|[(_ & e & _ & _ & [=])|(_ & a & _ & R)]];
    [now left|].
  apply scan_end_returned in R.
  destruct R as [->|(t & l1 & l0 & Hin & _ & Hrow)]; [right; now left|].
  right. right. exists t.
  inversion Hrow as [| | | |x s D F S X| |x s text D F S X Fee Hq Acc|]; subst.
  - repeat split; try assumption. now left.
  - repeat split; try assumption. right. now exists text.
Qed.

Lemma company_1_same_but_status (rows1 rows2 : list txn) :
  Forall2 same_but_status rows1 rows2 ->
  Forall2 same_but_status (company_1 rows1) (company_1 rows2).
Proof.
  induction 1 as [|t1 t2 rest1 rest2 Ht _ IH]; [constructor|].
  unfold company_1 in *. cbn [filter].
  assert (Hc : t_company_id t1 = t_company_id t2).
  { unfold same_but_status, with_status in Ht. now injection Ht. }
  rewrite Hc. destruct (t_company_id t2 =? 1); [constructor|]; assumption.
Qed.

Lemma same_but_status_refl (rows : list txn) :
  Forall2 same_but_status rows rows.
Proof. induction rows; constructor; auto. reflexivity. Qed.

(** The step leaves every column of the transactions but status. *)
Lemma reconcile_step_transactions (scorer : string -> string -> result Z)
    (service : prompt -> gen_reply) (read_fault mark_fault : option string)
    (invoice_id : Z) (extracted_data : invoice) (s : store) :
  Forall2 same_but_status (transactions s)
    (transactions (fst (reconcile_step scorer service read_fault mark_fault
                          invoice_id extracted_data s))).
Proof.
  unfold reconcile_step.
  destruct read_fault as [msg|]; [apply same_but_status_refl|].
  destruct (snd (run _ _ _)) as [d|e]; [|apply same_but_status_refl].
  destruct (is_match d); [|apply same_but_status_refl].
  destruct (transaction_id d) as [tid|]; [|apply same_but_status_refl].
  destruct (negb (invoice_id =? -1)); [|apply same_but_status_refl].
  destruct mark_fault as [msg|]; cbn; [apply same_but_status_refl|].
  apply update_transaction_rows.
Qed.

(** X9: the reconciliation step of the page changes the store in one
    case only: the invoice was saved (its id is not -1), reading and
    marking raised nothing, and the matcher returned a match; the
    transaction it then marks is a debit row of company 1 that is in the
    store, the one whose id and snapshot the decision carries.  In every
    other case, also when the matcher raises, the store is left as it
    was. *)
Theorem X9_step_marks_only_matched_debit_rows
    (scorer : string -> string -> result Z) (service : prompt -> gen_reply)
    (read_fault mark_fault : option string) (invoice_id : Z)
    (extracted_data : invoice) (s : store) :
  let s' := fst (reconcile_step scorer service read_fault mark_fault
                   invoice_id extracted_data s) in
  s' = s \/
  (invoice_id <> -1 /\ read_fault = None /\ mark_fault = None /\
   exists t d,
     In t (transactions s) /\ t_company_id t = 1 /\ is_debit t = true /\
     snd (run scorer service
            (reconcile_invoice_with_ai extracted_data
               (company_1 (transactions s)))) = Ok d /\
     is_match d = true /\
     transaction_id d = Some (t_id t) /\ matched_data d = Some t /\
     s' = fst (mark_as_reconciled None invoice_id (t_id t) s)).
Proof.
  unfold reconcile_step.
  destruct read_fault as [msg|]; [now left|].
  destruct (snd (run _ _ _)) as [d|e] eqn:R; [|now left].
  destruct (is_match d) eqn:M; [|now left].
  destruct (run_reconcile_returned _ _ _ _ _ R)
    as [->|[->|(t & Hin & D & Hd)]]; try discriminate M.
  assert (Hid : transaction_id d = Some (t_id t) /\ matched_data d = Some t).
  { destruct Hd as [->|(text & ->)]; now split. }
  destruct Hid as [Hid Hm]. rewrite Hid.
  destruct (invoice_id =? -1) eqn:E; cbn [negb]; [now left|].
  destruct mark_fault as [msg|]; [now left|].
  right. apply Z.eqb_neq in E. repeat split; try assumption.
  unfold company_1 in Hin. apply filter_In in Hin. destruct Hin as [Hin Hc].
  apply Z.eqb_eq in Hc. exists t, d. repeat split; assumption.
Qed.

(** X10: the step never changes what the matcher finds.  On the store the
    step leaves behind, the matcher makes the same calls and ends the
    same way for the same invoice, up to the status inside the snapshot:
    a transaction the step has just marked Reconciled is matched again
    when the same invoice is processed once more. *)
Theorem X10_step_keeps_the_verdict
    (scorer : string -> string -> result Z) (service : prompt -> gen_reply)
    (read_fault mark_fault : option string) (invoice_id : Z)
    (extracted_data : invoice) (s : store) :
  let s' := fst (reconcile_step scorer service read_fault mark_fault
                   invoice_id extracted_data s) in
  fst (run scorer service
         (reconcile_invoice_with_ai extracted_data
            (company_1 (transactions s)))) =
  fst (run scorer service
         (reconcile_invoice_with_ai extracted_data
            (company_1 (transactions s')))) /\
  same_result_but_status
    (snd (run scorer service
            (reconcile_invoice_with_ai extracted_data
               (company_1 (transactions s)))))
    (snd (run scorer service
            (reconcile_invoice_with_ai extracted_data
               (company_1 (transactions s'))))).
Proof.
  intros s'.
  assert (H := company_1_same_but_status _ _
                 (reconcile_step_transactions scorer service read_fault
                    mark_fault invoice_id extracted_data s)).
  fold s' in H. unfold reconcile_invoice_with_ai.
  destruct H as [|t1 t2 rest1 rest2 Ht Hrest].
  - split; [reflexivity|]. cbn. repeat split.
  - destruct (invoice_amount extracted_data) as [inv_amount|e].
    + apply run_scan_same_but_status. now constructor.
    + now split.
Qed.

(** X11: when the extraction fails, the matcher works on the fallback
    invoice with amount 0.0, and in every run the judgment service is
    never asked; a decision it returns is Pending, or an Exact Match of a
    debit row whose amount is zero. *)
Theorem X11_failed_extraction_never_asks_the_service
    (scorer : string -> string -> result Z)
    (service : prompt -> gen_reply -> Prop)
    (e : exn) (transactions_df : list txn)
    (l : list event) (r : result decision) :
  runs scorer service
       (reconcile_invoice_with_ai (process_pdf_with_gemini (Raised e))
          transactions_df) l r ->
  service_calls l = [] /\
  forall d, r = Ok d ->
    status d = Pending \/
    exists t txn_amount,
      status d = ExactMatch /\ matched_data d = Some t /\
      In t transactions_df /\ is_debit t = true /\
      py_float (t_amount t) = Ok txn_amount /\
      (0 =? txn_amount)%float = true.
Proof.
  intros H. cbn [process_pdf_with_gemini] in H.
  apply runs_reconcile_cases in H.
  destruct H as [(_ & -> & ->)|[(_ & e' & He & _)|(_ & a & Ha & H)]].
  - split; [reflexivity|]. intros d [= <-]. now left.
  - discriminate He.
  - injection Ha as <-.
    assert (Hzero : (0 <? 0)%float = false) by reflexivity.
    destruct (scan_end_no_request scorer service _ _ 0%float _ _ _ Hzero H)
      as [Hcalls Hnot].
    split; [assumption|]. intros d ->.
    apply scan_end_returned in H.
    destruct H as [->|(t & l1 & l0 & Hin & _ & Hrow)]; [now left|].
    inversion Hrow as [| | | |x s D F S X| |x s text D F S X Fee Hq Acc|]; subst.
    + right. exists t, x. unfold exact_rule in X. apply andb_true_iff in X.
      destruct X as [X _]. repeat split; assumption.
    + exfalso. now apply (Hnot _ eq_refl).
Qed.

Lemma X11_witness :
  service_calls
    (fst (run occurs_scorer says_yes
            (reconcile_invoice_with_ai
               (process_pdf_with_gemini (Raised (ValueError "no text")))
               [acme_row 1 (Num 0.01%float) "debit" "Unreconciled";
                acme_row 2 (Num 150%float) "debit" "Unreconciled"])))
  = [].
Proof.
  exact (proj1 (X11_failed_extraction_never_asks_the_service occurs_scorer
    (fun q reply => says_yes q = reply) (ValueError "no text")
    [acme_row 1 (Num 0.01%float) "debit" "Unreconciled";
     acme_row 2 (Num 150%float) "debit" "Unreconciled"] _ _
    (run_runs occurs_scorer says_yes _))).
Defined.

(** * The exact-amount lookup *)

Lemma match_found_first (ai_amount : float) (df : list bank_row) :
  match match_found ai_amount df with
  | row :: _ =>
      exists pre post,
        df = pre ++ row :: post /\
        Forall (fun x => (b_amount x =? ai_amount)%float = false) pre /\
        (b_amount row =? ai_amount)%float = true
  | [] => Forall (fun x => (b_amount x =? ai_amount)%float = false) df
  end.
Proof.
  induction df as [|x rest IH]; [constructor|].
  unfold match_found in *. cbn [filter].
  destruct (b_amount x =? ai_amount)%float eqn:E.
  - exists [], rest. repeat split; [constructor|assumption].
  - destruct (filter _ rest) as [|row found].
    + now constructor.
    + destruct IH as (pre & post & -> & Hpre & Hrow).
      exists (x :: pre), post. repeat split; [now constructor|assumption].
Qed.

(** X12: for an invoice whose vendor_name is present and whose
    total_amount is a number, and a bank file that exists,
    [match_invoice_to_bank] reports the first row in file order whose
    Amount is equal to the invoice amount, with that row's Date and
    Description, whatever else the row holds; it reports the payment as
    pending exactly when no row has that Amount. *)
Theorem X12_lookup_reports_first_equal_amount
    (invoice_data : invoice) (ai_vendor : string) (c : cell)
    (ai_amount : float) (df : list bank_row) :
  vendor_name invoice_data = Some ai_vendor ->
  total_amount invoice_data = Some c ->
  py_float c = Ok ai_amount ->
  (exists pre row post,
     df = pre ++ row :: post /\
     Forall (fun x => (b_amount x =? ai_amount)%float = false) pre /\
     (b_amount row =? ai_amount)%float = true /\
     match_invoice_to_bank (Some invoice_data) (Some df) =
     LookupReturned (PaymentMatched ai_amount (b_date row)
                                    (b_description row))) \/
  (Forall (fun x => (b_amount x =? ai_amount)%float = false) df /\
   match_invoice_to_bank (Some invoice_data) (Some df) =
   LookupReturned (PaymentPending ai_amount ai_vendor)).
Proof.
  intros Hv Hc Ha. unfold match_invoice_to_bank. rewrite Hv, Hc, Ha.
  pose proof (match_found_first ai_amount df) as H.
  destruct (match_found ai_amount df) as [|row found].
  - right. now split.
  - left. destruct H as (pre & post & Hdf & Hpre & Hrow).
    exists pre, row, post. now repeat split.
Qed.

Lemma X12_witness :
  match_invoice_to_bank (Some (acme_invoice (Some (Num 150%float))))
    (Some [{| b_date := "2026-03-12"; b_description := "Stripe Payout";
              b_amount := 2500%float |};
           {| b_date := "2026-03-10"; b_description := "Amazon Web Services";
              b_amount := 150%float |};
           {| b_date := "2026-03-15"; b_description := "Refund";
              b_amount := 150%float |}]) =
  LookupReturned (PaymentMatched 150 "2026-03-10" "Amazon Web Services").
Proof.
  destruct (X12_lookup_reports_first_equal_amount
    (acme_invoice (Some (Num 150%float))) "Acme Corp" (Num 150%float)
    150%float
    [{| b_date := "2026-03-12"; b_description := "Stripe Payout";
        b_amount := 2500%float |};
     {| b_date := "2026-03-10"; b_description := "Amazon Web Services";
        b_amount := 150%float |};
     {| b_date := "2026-03-15"; b_description := "Refund";
        b_amount := 150%float |}] eq_refl eq_refl eq_refl)
    as [(pre & row & post & _ & _ & _ & H)|[_ H]]; reflexivity.
Defined.

(** * The chat *)

Lemma append_assoc (a b c : string) :
  ((a ++ b) ++ c = a ++ (b ++ c))%string.
Proof.
  induction a as [|ch a IH]; [reflexivity|]. cbn. now rewrite IH.
Qed.

(** X14: the history text is built message by message: the text of a
    history followed by further messages is the text of the history
    followed by the text of those messages, so the prompt of a later
    turn carries the text of the earlier turns unchanged; and only a
    message whose role is exactly "user" is labelled User, any other
    role is labelled AI CFO. *)
Theorem X14_history_text_is_compositional (h1 h2 : list message) :
  formatted_history (h1 ++ h2) =
  (formatted_history h1 ++ formatted_history h2)%string /\
  forall msg,
    formatted_history (h1 ++ [msg]) =
    (formatted_history h1
     ++ (if String.eqb (role msg) "user" then "User" else "AI CFO")
     ++ ": " ++ content msg ++ nl)%string.
Proof.
  assert (Happ : forall a b, formatted_history (a ++ b) =
                 (formatted_history a ++ formatted_history b)%string).
  { intros a b. induction a as [|msg rest IH]; [reflexivity|].
    cbn [app formatted_history]. rewrite IH.
    now rewrite !append_assoc. }
  split; [apply Happ|].
  intros msg. rewrite Happ. reflexivity.
Qed.

Lemma chat_session_roles (model : string -> result string)
    (context_data : string) (inputs : list (option string)) :
  forall chat_history,
    map role (chat_session model context_data chat_history inputs) =
    map role chat_history
      ++ flat_map (fun _ => ["user"; "assistant"]) (entered inputs) /\
    map content
        (filter from_user
           (chat_session model context_data chat_history inputs)) =
    map content (filter from_user chat_history) ++ entered inputs.
Proof.
  unfold chat_session.
  induction inputs as [|[text|] rest IH]; intros h; cbn [fold_left entered].
  - cbn. now rewrite !app_nil_r.
  - destruct text as [|ch text'].
    + apply IH.
    + cbn [render_ai_cfo_chat].
      destruct (IH ((h ++ [{| role := "user"; content := String ch text' |}])
                      ++ [{| role := "assistant";
                             content := get_cfo_response model
                               (h ++ [{| role := "user";
                                         content := String ch text' |}])
                               context_data |}])) as [IH1 IH2].
      rewrite IH1, IH2. split.
      * rewrite !map_app. cbn. now rewrite <- !app_assoc.
      * rewrite !filter_app, !map_app. cbn. now rewrite <- !app_assoc.
  - apply IH.
Qed.

(** X13: over any series of reruns of the chat from an empty history,
    the history holds one user message followed by one assistant message
    for each text that was entered, in the order of entry; a rerun
    without input, or with an empty one, adds nothing.  This holds
    whatever the model answers, also when its call raises. *)
Theorem X13_chat_history_alternates
    (model : string -> result string) (context_data : string)
    (inputs : list (option string)) :
  map role (chat_session model context_data [] inputs) =
  flat_map (fun _ => ["user"; "assistant"]) (entered inputs) /\
  map content (filter from_user (chat_session model context_data [] inputs)) =
  entered inputs /\
  List.length (chat_session model context_data [] inputs) =
  (2 * List.length (entered inputs))%nat.
Proof.
  destruct (chat_session_roles model context_data inputs []) as [H1 H2].
  cbn [map filter app] in H1, H2. split; [exact H1|split; [exact H2|]].
  rewrite <- (length_map role), H1. clear H1 H2.
  induction (entered inputs) as [|x xs IH]; [reflexivity|].
  cbn [flat_map app List.length]. rewrite IH. lia.
Qed.

(** * Edge cases of the matcher *)

Section NotANumber.

Local Open Scope float_scope.



End NotANumber.



Lemma filter_debit_none (rows : list txn) :
  Forall (fun t => is_debit t = false) rows -> filter is_debit rows = [].
Proof.
  induction 1 as [|t rest Ht _ IH]; [reflexivity|].
  cbn [filter]. now rewrite Ht.
Qed.

(** X16: on a non-empty sequence without any debit row the scorer and
    the service are never called and no row's amount is converted, but
    the invoice amount is: the result is the Pending decision "No
    matching payment found in bank transactions." when it converts, and
    the exception of [float()] when it does not. *)
Theorem X16_no_debit_rows
    (scorer : string -> string -> result Z) (service : prompt -> gen_reply)
    (invoice_data : invoice) (transactions_df : list txn) :
  transactions_df <> [] ->
  Forall (fun t => is_debit t = false) transactions_df ->
  run scorer service (reconcile_invoice_with_ai invoice_data transactions_df) =
  match invoice_amount invoice_data with
  | Ok _ => ([], Ok no_match)
  | Raised e => ([], Raised e)
  end.
Proof.
  intros Hne Hnone. unfold reconcile_invoice_with_ai.
  destruct transactions_df as [|t rest]; [contradiction|].
  destruct (invoice_amount invoice_data) as [inv_amount|e]; [|reflexivity].
  now rewrite run_scan_filter_debit, (filter_debit_none _ Hnone).
Qed.

Lemma X16_witness :
  run raising_scorer says_yes
      (reconcile_invoice_with_ai (acme_invoice None)
         [acme_row 1 (NotNum "N/A") "Credit" "Unreconciled";
          acme_row 2 Null "refund" "Unreconciled"]) =
  ([], Ok no_match).
Proof.
  refine (X16_no_debit_rows raising_scorer says_yes (acme_invoice None)
    [acme_row 1 (NotNum "N/A") "Credit" "Unreconciled";
     acme_row 2 Null "refund" "Unreconciled"] _ _).
  - discriminate.
  - repeat constructor.
Defined.

Lemma run_scan_stops (scorer : string -> string -> result Z)
    (service : prompt -> gen_reply) (inv_vendor inv_num : string)
    (inv_amount : float) (pre rest : list txn) :
  snd (run scorer service (scan inv_vendor inv_num inv_amount pre))
    <> Ok no_match ->
  run scorer service (scan inv_vendor inv_num inv_amount (pre ++ rest)) =
  run scorer service (scan inv_vendor inv_num inv_amount pre).
Proof.
  induction pre as [|t pre IH]; intros H.
  - now contradiction H.
  - rewrite <- app_comm_cons, !run_scan_cons. rewrite run_scan_cons in H.
    unfold then_run in *.
    destruct (snd (row_run scorer service inv_vendor inv_num inv_amount t))
      as [r0|]; [reflexivity|].
    cbn [snd] in H. now rewrite (IH H).
Qed.

(** X17: a match, once found, does not depend on what follows: when the
    function returns a decision that is not Pending for a sequence, it
    makes the same calls and returns the same decision for every
    sequence that extends it with further rows at the end. *)
Theorem X17_later_rows_keep_a_match
    (scorer : string -> string -> result Z) (service : prompt -> gen_reply)
    (invoice_data : invoice) (transactions_df more : list txn)
    (d : decision) :
  snd (run scorer service
         (reconcile_invoice_with_ai invoice_data transactions_df)) = Ok d ->
  status d <> Pending ->
  run scorer service
      (reconcile_invoice_with_ai invoice_data (transactions_df ++ more)) =
  run scorer service
      (reconcile_invoice_with_ai invoice_data transactions_df).
Proof.
  unfold reconcile_invoice_with_ai. intros H Hst.
  destruct transactions_df as [|t rest].
  - injection H as <-. now contradiction Hst.
  - rewrite <- app_comm_cons.
    destruct (invoice_amount invoice_data) as [inv_amount|e]; [|reflexivity].
    rewrite app_comm_cons. apply run_scan_stops. rewrite H.
    intros [= ->]. now apply Hst.
Qed.

Lemma X17_witness :
  let inv := acme_invoice (Some (Num 150%float)) in
  let hit := acme_row 1 (Num 150%float) "debit" "Unreconciled" in
  run occurs_scorer says_yes
      (reconcile_invoice_with_ai inv
         ([hit] ++ [acme_row 2 (NotNum "N/A") "debit" "Unreconciled"])) =
  run occurs_scorer says_yes (reconcile_invoice_with_ai inv [hit]).
Proof.
  cbv zeta.
  refine (X17_later_rows_keep_a_match occurs_scorer says_yes
    (acme_invoice (Some (Num 150%float)))
    [acme_row 1 (Num 150%float) "debit" "Unreconciled"]
    [acme_row 2 (NotNum "N/A") "debit" "Unreconciled"]
    (exact_match (acme_row 1 (Num 150%float) "debit" "Unreconciled"))
    eq_refl _).
  discriminate.
Defined.

Lemma lower_ascii_twice (c : ascii) :
  PyStr.lower_ascii (PyStr.lower_ascii c) = PyStr.lower_ascii c.
Proof.
  destruct c as [[] [] [] [] [] [] [] []]; reflexivity.
Qed.

Lemma lower_twice (s : string) : PyStr.lower (PyStr.lower s) = PyStr.lower s.
Proof.
  unfold PyStr.lower. induction s as [|c s IH]; [reflexivity|].
  cbn [PyStr.map]. now rewrite lower_ascii_twice, IH.
Qed.

(** X18: the scorer only ever sees lowercased text: in every run, each
    call of the scorer compares the lowercased vendor name or the
    lowercased invoice number of the invoice with the lowercased
    description of a debit row of the sequence, so lowercasing either
    argument again changes nothing. *)
Theorem X18_scorer_sees_lowercased_text
    (scorer : string -> string -> result Z)
    (service : prompt -> gen_reply -> Prop)
    (invoice_data : invoice) (transactions_df : list txn)
    (l : list event) (r : result decision) :
  runs scorer service
       (reconcile_invoice_with_ai invoice_data transactions_df) l r ->
  Forall (fun call =>
            (fst call = invoice_vendor invoice_data \/
             fst call = invoice_num invoice_data) /\
            (exists t, In t transactions_df /\ is_debit t = true /\
                       snd call = PyStr.lower (t_description t)) /\
            PyStr.lower (fst call) = fst call /\
            PyStr.lower (snd call) = snd call)
         (scorer_calls l).
Proof.
  intros H. apply runs_reconcile_cases in H.
  destruct H as [(_ & -> & _)|[(_ & e & _ & -> & _)|(_ & a & _ & H)]];
    try constructor.
  set (ok := fun rows (call : string * string) =>
            (fst call = invoice_vendor invoice_data \/
             fst call = invoice_num invoice_data) /\
            (exists t, In t rows /\ is_debit t = true /\
                       snd call = PyStr.lower (t_description t)) /\
            PyStr.lower (fst call) = fst call /\
            PyStr.lower (snd call) = snd call).
  change (Forall (ok transactions_df) (scorer_calls l)).
  assert (Hv : forall t, is_debit t = true ->
            ok [t] (invoice_vendor invoice_data, PyStr.lower (t_description t))).
  { intros t D. repeat split; cbn [fst snd];
      try (apply lower_twice); [now left|].
    exists t. repeat split; [now left|assumption]. }
  assert (Hn : forall t, is_debit t = true ->
            ok [t] (invoice_num invoice_data, PyStr.lower (t_description t))).
  { intros t D. repeat split; cbn [fst snd];
      try (apply lower_twice); [now right|].
    exists t. repeat split; [now left|assumption]. }
  assert (Hrow : forall t l0 o,
            row_end scorer service (invoice_vendor invoice_data)
              (invoice_num invoice_data) a t l0 o ->
            Forall (ok [t]) (scorer_calls l0)).
  { intros t l0 o Hr.
    destruct Hr as [D|e D|? e D|? ? e D|? ? D|? ? D|? ? text D|? ? reply D];
      cbn [scorer_calls]; rewrite ?(proj2 (refusal_log_calls _));
      repeat (apply Forall_cons; [first [now apply Hv|now apply Hn]|]);
      apply Forall_nil. }
  assert (Hmono : forall rows1 rows2 calls,
            (forall t, In t rows1 -> In t rows2) ->
            Forall (ok rows1) calls -> Forall (ok rows2) calls).
  { intros rows1 rows2 calls Hsub Hc. eapply Forall_impl; [|exact Hc].
    intros call (H1 & (t & Hin & D & Hb) & H3 & H4).
    repeat split; try assumption. exists t. auto. }
  induction H as [|t rest l r Hr|t rest l0 l r Hr Hrest IH].
  - constructor.
  - apply (Hmono [t]); [|now apply (Hrow _ _ _ Hr)].
    intros x [<-|[]]. now left.
  - rewrite scorer_calls_app. apply Forall_app. split.
    + apply (Hmono [t]); [|now apply (Hrow _ _ _ Hr)].
      intros x [<-|[]]. now left.
    + apply (Hmono rest); [|assumption]. intros x Hx. now right.
Qed.

Lemma X18_witness :
  Forall (fun call =>
            PyStr.lower (fst call) = fst call /\
            PyStr.lower (snd call) = snd call)
    (scorer_calls
       (fst (run occurs_scorer says_no
               (reconcile_invoice_with_ai
                  (acme_invoice (Some (Num 150%float)))
                  [acme_row 1 (Num 10%float) "DEBIT" "Unreconciled"])))).
Proof.
  eapply Forall_impl;
    [|exact (X18_scorer_sees_lowercased_text occurs_scorer
               (fun q reply => says_no q = reply)
               (acme_invoice (Some (Num 150%float)))
               [acme_row 1 (Num 10%float) "DEBIT" "Unreconciled"] _ _
               (run_runs occurs_scorer says_no _))].
  intros call (_ & _ & H). exact H.
Defined.
